(** * Segmentation analysis scripts: overlap score and displacement extraction

    A shallow embedding of the routines of [src/scripts]:

    - [dice_score] ([dice_score.py], [chat_dice.py], [dice_score_folder.py],
      [new_dice_score.py]) together with the NumPy operations it calls
      ([astype(bool)], [>], [logical_and] with broadcasting, [sum]);
    - the batch loops of [chat_dice.py] and [dice_score_folder.py];
    - [process_structure_csv] ([displacement_plotter_realdata.py]),
      [compute_displacement] ([batch_displacement_processor.py]) and the
      module-level pipeline of [tumour_displacement.py].

    Modelling conventions.  Voxel intensities and coordinates are finite
    numbers, modelled as rationals ([Q]); the NumPy/pandas missing value
    [NaN] that a table keeps for an unrecognised category is modelled by
    [None].  A volume is its shape together with its data in row-major
    order.  Python exceptions are values of [exn]; a call that can raise
    returns [result].  A series identifier is the text of its cell in the
    CSV file; whether pandas reads the column as text or as numbers is
    decided from these texts ([Pd.object_column]).  The file system and
    the plotting library are collaborators: what exists, what decodes,
    whether a file can be written and which keys [plot] accepts are
    explicit in the model. *)

From Stdlib Require Import List Arith Lia Bool ZArith QArith Qround.
From Stdlib Require Import Strings.String Strings.Ascii.
From Stdlib Require Import Sorting.Sorted Sorting.Permutation.
From Stdlib Require Import Reals Lra Qreals.
From Stdlib Require Qabs Lqa.
Import ListNotations.

Local Open Scope list_scope.
Local Open Scope string_scope.

(** ** Python exceptions and fallible calls *)

Inductive exn : Type :=
| ValueError (msg : string)
| IndexError (msg : string)
| FileNotFoundError (msg : string)
| TypeError (msg : string)
| AttributeError (msg : string)
| OSError (msg : string).

Definition exn_msg (e : exn) : string :=
  match e with
  | ValueError m | IndexError m | FileNotFoundError m
  | TypeError m | AttributeError m | OSError m => m
  end.

Inductive result (A : Type) : Type :=
| Ok (a : A)
| Raise (e : exn).

Arguments Ok {A} a.
Arguments Raise {A} e.

Definition bind {A B : Type} (m : result A) (k : A -> result B) : result B :=
  match m with
  | Ok a => k a
  | Raise e => Raise e
  end.

Notation "x <- m ;; k" := (bind m (fun x => k))
  (at level 61, m at next level, right associativity).

(** ** Strings as Python uses them *)

Module Str.

(** [s.startswith(p)] *)
Fixpoint startswith (p s : string) : bool :=
  match p, s with
  | EmptyString, _ => true
  | String a p', String b s' => Ascii.eqb a b && startswith p' s'
  | String _ _, EmptyString => false
  end.

(** [p in s] for strings; also [Series.str.contains(p)] for a pattern
    without regular-expression metacharacters. *)
Fixpoint contains (p s : string) : bool :=
  startswith p s ||
  match s with
  | EmptyString => false
  | String _ s' => contains p s'
  end.

(** [s.endswith(p)] *)
Definition endswith (p s : string) : bool :=
  (String.length p <=? String.length s)%nat &&
  String.eqb (substring (String.length s - String.length p) (String.length p) s) p.

(** ASCII part of [str.lower]. *)
Definition lower_ascii (c : ascii) : ascii :=
  let n := nat_of_ascii c in
  if ((65 <=? n) && (n <=? 90))%nat then ascii_of_nat (n + 32) else c.

Fixpoint lower (s : string) : string :=
  match s with
  | EmptyString => EmptyString
  | String c s' => String (lower_ascii c) (lower s')
  end.

(** ASCII characters for which [str.isspace] holds: TAB, LF, VT, FF, CR,
    FS, GS, RS, US and SPACE. *)
Definition is_space (c : ascii) : bool :=
  let n := nat_of_ascii c in
  (((9 <=? n) && (n <=? 13)) || ((28 <=? n) && (n <=? 32)))%nat.

Fixpoint lstrip (s : string) : string :=
  match s with
  | EmptyString => EmptyString
  | String c s' => if is_space c then lstrip s' else s
  end.

(** [rstrip]: a character is kept when it is not a space or when
    something is kept after it. *)
Fixpoint rstrip (s : string) : string :=
  match s with
  | EmptyString => EmptyString
  | String c s' =>
      match rstrip s' with
      | EmptyString => if is_space c then EmptyString else String c EmptyString
      | r => String c r
      end
  end.

Definition strip (s : string) : string := rstrip (lstrip s).

(** [x in xs] for a list of strings. *)
Definition mem (x : string) (xs : list string) : bool :=
  existsb (String.eqb x) xs.

(** Decimal digits of a natural number, least significant digit first. *)
Fixpoint digits_rev (fuel n : nat) : list ascii :=
  match fuel with
  | O => []
  | S fuel' =>
      let d := ascii_of_nat (48 + n mod 10) in
      if (n <? 10)%nat then [d] else d :: digits_rev fuel' (n / 10)
  end.

(** [str(n)] for a non-negative integer. *)
Definition of_nat (n : nat) : string :=
  string_of_list_ascii (rev (digits_rev (S n) n)).

(** [sep.join(xs)] *)
Fixpoint join (sep : string) (xs : list string) : string :=
  match xs with
  | [] => EmptyString
  | [x] => x
  | x :: rest => x ++ sep ++ join sep rest
  end.

End Str.

(** ** NumPy arrays *)

Module Np.

(** An n-dimensional array: its shape and its elements in C order. *)
Record ndarray (A : Type) : Type := mk_ndarray {
  shape : list nat;
  data : list A
}.

Arguments mk_ndarray {A} shape data.
Arguments shape {A} _.
Arguments data {A} _.

Definition size_of (s : list nat) : nat := fold_right Nat.mul 1%nat s.

(** The invariant every array satisfies: as many elements as its shape
    announces. *)
Definition wf {A : Type} (a : ndarray A) : Prop :=
  List.length (data a) = size_of (shape a).

Definition shape_eqb (s1 s2 : list nat) : bool :=
  if list_eq_dec Nat.eq_dec s1 s2 then true else false.

(** [repr] of a shape tuple: [()], [(4,)], [(4, 4, 4)]. *)
Definition shape_repr (s : list nat) : string :=
  match s with
  | [] => "()"
  | [d] => "(" ++ Str.of_nat d ++ ",)"
  | _ => "(" ++ Str.join ", " (map Str.of_nat s) ++ ")"
  end.

(** A shape as NumPy prints it in its broadcast error: [(4,4,4)]. *)
Definition shape_msg (s : list nat) : string :=
  match s with
  | [] => "()"
  | [d] => "(" ++ Str.of_nat d ++ ",)"
  | _ => "(" ++ Str.join "," (map Str.of_nat s) ++ ")"
  end.

(** Truth value of a scalar, as [astype(bool)] computes it. *)
Class Truthy (A : Type) : Type := truthy : A -> bool.

#[export] Instance truthy_bool : Truthy bool := fun b => b.
#[export] Instance truthy_Q : Truthy Q := fun q => negb (Qeq_bool q 0).

(** [a.astype(bool)] *)
Definition astype_bool {A : Type} `{Truthy A} (a : ndarray A) : ndarray bool :=
  mk_ndarray (shape a) (map truthy (data a)).

(** [a > c] *)
Definition gt (a : ndarray Q) (c : Q) : ndarray bool :=
  mk_ndarray (shape a) (map (fun v => negb (Qle_bool v c)) (data a)).

(** [a.sum()] of a boolean array: the number of true elements. *)
Definition count_true (l : list bool) : nat :=
  List.length (filter (fun b => b) l).

Definition sum (a : ndarray bool) : nat := count_true (data a).

(** *** Broadcasting *)

(** Shapes are compared from their last dimension; two dimensions are
    compatible when they are equal or one of them is 1. *)
Fixpoint broadcast_rev (r1 r2 : list nat) : option (list nat) :=
  match r1, r2 with
  | [], r => Some r
  | r, [] => Some r
  | d1 :: t1, d2 :: t2 =>
      match broadcast_rev t1 t2 with
      | None => None
      | Some t =>
          if (d1 =? d2)%nat then Some (d1 :: t)
          else if (d1 =? 1)%nat then Some (d2 :: t)
          else if (d2 =? 1)%nat then Some (d1 :: t)
          else None
      end
  end.

Definition broadcast_shapes (s1 s2 : list nat) : option (list nat) :=
  option_map (@rev nat) (broadcast_rev (rev s1) (rev s2)).

(** All multi-indices of a shape, in C order. *)
Fixpoint indices (s : list nat) : list (list nat) :=
  match s with
  | [] => [[]]
  | d :: t => flat_map (fun i => map (cons i) (indices t)) (seq 0 d)
  end.

(** Flat offset of a multi-index in an array of shape [s]; a dimension
    of extent 1 is stretched, its index is ignored. *)
Fixpoint ravel (s idx : list nat) : nat :=
  match s, idx with
  | d :: s', i :: idx' =>
      (if (d =? 1)%nat then 0 else i) * size_of s' + ravel s' idx'
  | _, _ => 0
  end.

(** The element of [a] that a multi-index of the broadcast result reads:
    leading dimensions that [a] lacks are dropped. *)
Definition read {A : Type} (dflt : A) (a : ndarray A) (idx : list nat) : A :=
  nth (ravel (shape a) (skipn (List.length idx - List.length (shape a)) idx))
      (data a) dflt.

Definition broadcast_to {A : Type} (dflt : A) (a : ndarray A) (s : list nat)
  : ndarray A :=
  mk_ndarray s (map (read dflt a) (indices s)).

(** [np.logical_and(a, b)]: raises [ValueError] when the shapes cannot be
    broadcast together. *)
Definition logical_and (a b : ndarray bool) : result (ndarray bool) :=
  match broadcast_shapes (shape a) (shape b) with
  | None =>
      Raise (ValueError
               ("operands could not be broadcast together with shapes "
                  ++ shape_msg (shape a) ++ " " ++ shape_msg (shape b) ++ " "))
  | Some s =>
      Ok (mk_ndarray s
            (map (fun idx => read false a idx && read false b idx) (indices s)))
  end.

End Np.

Import Np.

(** ** [dice_score] *)

(** The quotient [2. * intersection / total]. *)
Definition dice_ratio (intersection total : nat) : Q :=
  (2 * inject_Z (Z.of_nat intersection)) / inject_Z (Z.of_nat total).

(** [dice_score(seg1, seg2)], the same text in [dice_score.py],
    [chat_dice.py], [dice_score_folder.py] and [new_dice_score.py]. *)
Definition dice_score {A B : Type} `{Truthy A} `{Truthy B}
    (seg1 : ndarray A) (seg2 : ndarray B) : result Q :=
  let seg1 := astype_bool seg1 in
  let seg2 := astype_bool seg2 in
  both <- logical_and seg1 seg2 ;;
  let intersection := sum both in
  let total := (sum seg1 + sum seg2)%nat in
  if (total =? 0)%nat then Ok 1%Q
  else Ok (dice_ratio intersection total).

(** ** More of Python's built-ins used by the batch drivers *)

Module Py.

(** [round(q, ndigits)]: to the nearest multiple of [10^-ndigits], a tie
    going to the even neighbour. *)
Definition round (q : Q) (ndigits : nat) : Q :=
  let scale := inject_Z (10 ^ Z.of_nat ndigits) in
  let v := (q * scale)%Q in
  let n := Qfloor v in
  let frac := (v - inject_Z n)%Q in
  let m :=
    match Qcompare frac (1 # 2) with
    | Lt => n
    | Gt => (n + 1)%Z
    | Eq => if Z.even n then n else (n + 1)%Z
    end in
  (inject_Z m / scale)%Q.

(** [s.replace(old, empty)] for a non-empty [old]: [skip] counts the
    characters of a match still to be dropped. *)
Fixpoint remove_from (old : string) (skip : nat) (s : string) : string :=
  match s with
  | EmptyString => EmptyString
  | String c s' =>
      match skip with
      | S k => remove_from old k s'
      | O =>
          if Str.startswith old s
          then remove_from old (String.length old - 1) s'
          else String c (remove_from old 0 s')
      end
  end.

Definition remove_all (old s : string) : string := remove_from old 0 s.

(** [s.split(sep, 1)] for a one-character separator: the text before the
    first separator and, when there is one, the text after it. *)
Fixpoint split1 (sep : ascii) (s : string) : string * option string :=
  match s with
  | EmptyString => (EmptyString, None)
  | String c s' =>
      if Ascii.eqb c sep then (EmptyString, Some s')
      else let (h, t) := split1 sep s' in (String c h, t)
  end.

Definition digit_of (c : ascii) : option Z :=
  let n := nat_of_ascii c in
  if ((48 <=? n) && (n <=? 57))%nat then Some (Z.of_nat (n - 48)) else None.

Fixpoint digits_value (acc : Z) (s : string) : option Z :=
  match s with
  | EmptyString => Some acc
  | String c s' =>
      match digit_of c with
      | Some d => digits_value (10 * acc + d) s'
      | None => None
      end
  end.

(** [int(s)] on the decimal literals it accepts here: surrounding
    white space, an optional sign, at least one ASCII digit. *)
Definition int (s : string) : result Z :=
  let bad := ValueError ("invalid literal for int() with base 10: '" ++ s ++ "'") in
  let body (t : string) :=
    match t with
    | EmptyString => None
    | _ => digits_value 0 t
    end in
  let v :=
    match Str.strip s with
    | String "-"%char t => option_map Z.opp (body t)
    | String "+"%char t => body t
    | t => body t
    end in
  match v with
  | Some z => Ok z
  | None => Raise bad
  end.

(** [float(s)] on plain decimal literals: surrounding white space, an
    optional sign, digits with an optional fractional part.  The
    displacement script is stated for any [float]; this one serves the
    concrete tables below. *)
Definition float_unsigned (t : string) : option Q :=
  let (ip, rest) := split1 "."%char t in
  let fp := match rest with Some f => f | None => EmptyString end in
  match ip, fp with
  | EmptyString, EmptyString => None
  | _, _ =>
      match digits_value 0 ip, digits_value 0 fp with
      | Some i, Some f =>
          let scale := (10 ^ Z.of_nat (String.length fp))%Z in
          Some (inject_Z (i * scale + f) / inject_Z scale)%Q
      | _, _ => None
      end
  end.

Definition float_signed (t : string) : option Q :=
  match t with
  | String c u =>
      if Ascii.eqb c "-" then option_map Qopp (float_unsigned u)
      else if Ascii.eqb c "+" then float_unsigned u
      else float_unsigned t
  | EmptyString => float_unsigned t
  end.

Definition float (s : string) : option Q := float_signed (Str.strip s).

End Py.

(** ** [chat_dice.py]: [enhanced_dice_evaluation] *)

(** A cell of the [dice_score] column of a summary table. *)
Inductive score_cell : Type :=
| ScoreNA
| ScoreError
| ScoreValue (q : Q).

Record chat_row : Type := mk_chat_row {
  tumor : string;
  modality1_path : string;
  modality2_path : string;
  chat_dice_score : score_cell;
  note : string
}.

Section ChatDice.

(** The file system and [os.path.join] are collaborators of the loop:
    whether a file exists at a path, what [load_nifti] does on it (it may
    raise on a file it cannot decode), and what writing the summary with
    [to_csv] does (it raises when the directory is missing). *)
Variable os_path_join : string -> string -> string.
Variable os_path_exists : string -> bool.
Variable load_nifti : string -> result (ndarray Q).
Variable to_csv : string -> list chat_row -> result unit.

(** The body of the loop over [tumor_list].  Nothing catches an exception
    here: one raised by [load_nifti] leaves [enhanced_dice_evaluation]. *)
Definition evaluate_tumor (base_dir modality1_dir series_id1
                           modality2_dir series_id2 tumor : string)
  : result chat_row :=
  let path1 := os_path_join (os_path_join base_dir modality1_dir)
                            (series_id1 ++ "_" ++ tumor ++ ".nii.gz") in
  let path2 := os_path_join (os_path_join base_dir modality2_dir)
                            (series_id2 ++ "_" ++ tumor ++ ".nii.gz") in
  if negb (os_path_exists path1) || negb (os_path_exists path2) then
    Ok (mk_chat_row tumor
          (if os_path_exists path1 then path1 else "❌ Not found")
          (if os_path_exists path2 then path2 else "❌ Not found")
          ScoreNA "Missing file(s)")
  else
    vol1 <- load_nifti path1 ;;
    vol2 <- load_nifti path2 ;;
    let seg1 := gt vol1 (1 # 2) in
    let seg2 := gt vol2 (1 # 2) in
    if negb (shape_eqb (shape seg1) (shape seg2)) then
      Ok (mk_chat_row tumor path1 path2 ScoreNA
            ("Shape mismatch " ++ shape_repr (shape seg1) ++ " vs "
               ++ shape_repr (shape seg2)))
    else
      dice <- dice_score seg1 seg2 ;;
      Ok (mk_chat_row tumor path1 path2 (ScoreValue (Py.round dice 4)) "OK").

(** A [for] loop that appends one row per item. *)
Fixpoint for_each {A B : Type} (body : A -> result B) (items : list A)
  : result (list B) :=
  match items with
  | [] => Ok []
  | x :: rest =>
      row <- body x ;;
      rows <- for_each body rest ;;
      Ok (row :: rows)
  end.

(** Where [enhanced_dice_evaluation] writes its summary. *)
Definition summary_path
    (base_dir modality1 series_id1 modality2 series_id2 patient_id : string)
  : string :=
  os_path_join base_dir
    ("dice_summary_pat" ++ patient_id ++ "_" ++ modality1 ++ "_" ++ series_id1
       ++ "_vs_" ++ modality2 ++ "_" ++ series_id2 ++ ".csv").

(** [enhanced_dice_evaluation]; [patient_id] is given as it prints.  The
    summary is written before the rows are returned. *)
Definition enhanced_dice_evaluation
    (base_dir modality1 series_id1 modality2 series_id2 : string)
    (tumor_list : list string) (patient_id : string) : result (list chat_row) :=
  let modality1_dir := modality1 ++ "_pat" ++ patient_id ++ "_segmentations" in
  let modality2_dir := modality2 ++ "_pat" ++ patient_id ++ "_segmentations" in
  results <-
    for_each
      (evaluate_tumor base_dir modality1_dir series_id1 modality2_dir series_id2)
      tumor_list ;;
  _ <- to_csv (summary_path base_dir modality1 series_id1 modality2 series_id2
                 patient_id) results ;;
  Ok results.

End ChatDice.

(** ** [dice_score_folder.py]: the comparison loop *)

(** A row of [structure_stats_2.csv] after [dropna]. *)
Record volume_row : Type := mk_volume_row {
  vr_series_id : Z;
  vr_name : string;
  vr_volume : Q
}.

(** The [itv_volume_mm3] column: a rounded volume or the text ["N/A"]. *)
Inductive itv_cell : Type :=
| ItvNA
| ItvValue (q : Q)
| ItvText (msg : string).

Record folder_row : Type := mk_folder_row {
  filename : string;
  folder_dice_score : score_cell;
  itv_volume_mm3 : itv_cell
}.

(** The statements inside [try]: a file of the folder is given with what
    [load_nifti] does on it. *)
Definition compare_file (volume_df : list volume_row) (gt_mask : ndarray bool)
    (file : string) (loaded : result (ndarray Q)) : result folder_row :=
  vol <- loaded ;;
  let pred_mask := gt vol (1 # 2) in
  score <- dice_score gt_mask pred_mask ;;
  let parts := Py.split1 "_"%char (Py.remove_all ".nii.gz" file) in
  series_id <- Py.int (fst parts) ;;
  tumour_name <-
    match snd parts with
    | Some t => Ok t
    | None => Raise (IndexError "list index out of range")
    end ;;
  let row :=
    filter (fun r => (vr_series_id r =? series_id)%Z
                     && String.eqb (vr_name r) tumour_name) volume_df in
  let itv_volume :=
    match row with
    | [] => None
    | r :: _ => Some (vr_volume r)
    end in
  Ok (mk_folder_row file (ScoreValue (Py.round score 4))
        match itv_volume with
        | Some v => ItvValue (Py.round v 1)
        | None => ItvNA
        end).

(** One iteration of [for file in os.listdir(folder_path)]: files that are
    not volumes and the ground truth itself add no row; an exception of the
    [try] block becomes an ["ERROR"] row. *)
Definition folder_step (volume_df : list volume_row) (gt_mask : ndarray bool)
    (gt_filename : string) (entry : string * result (ndarray Q))
  : list folder_row :=
  let (file, loaded) := entry in
  if negb (Str.endswith ".nii" file || Str.endswith ".nii.gz" file) then []
  else if String.eqb file gt_filename then []
  else
    match compare_file volume_df gt_mask file loaded with
    | Ok row => [row]
    | Raise e => [mk_folder_row file ScoreError (ItvText ("❌ " ++ exn_msg e))]
    end.

(** The whole loop, from the ground-truth volume and the folder listing. *)
Definition dice_score_folder (volume_df : list volume_row)
    (ground_truth : ndarray Q) (gt_filename : string)
    (listing : list (string * result (ndarray Q))) : list folder_row :=
  let gt_mask := gt ground_truth (1 # 2) in
  flat_map (folder_step volume_df gt_mask gt_filename) listing.

(** ** pandas: sorting a table and categorical columns *)

Module Pd.

(** Insertion of a row before the first row that is not smaller. *)
Fixpoint insert_by {A : Type} (le : A -> A -> bool) (x : A) (l : list A)
  : list A :=
  match l with
  | [] => [x]
  | y :: t => if le x y then x :: l else y :: insert_by le x t
  end.

(** [df.sort_values(col)], ascending; rows with equal keys are kept in
    their input order here (pandas promises no order among them). *)
Definition sort_values {A : Type} (le : A -> A -> bool) (l : list A) : list A :=
  fold_right (insert_by le) [] l.

(** Position of a label among the categories of a [Categorical]. *)
Fixpoint code (categories : list string) (label : string) : option nat :=
  match categories with
  | [] => None
  | c :: rest =>
      if String.eqb label c then Some 0%nat
      else option_map S (code rest label)
  end.

(** Order of category codes, a missing category going last. *)
Definition code_le (a b : option nat) : bool :=
  match a, b with
  | Some i, Some j => (i <=? j)%nat
  | Some _, None => true
  | None, Some _ => false
  | None, None => true
  end.

(** Whether [pd.read_csv] leaves a column of cells as text (dtype
    [object]), so that the [.str] accessor works on it: it does for a
    column without cells and for a column with a cell that does not read as
    a number; a column whose cells all read as numbers becomes numeric.
    The numbers are the decimal literals of [Py.float]; exponents,
    infinities and the markers of a missing value, which the reader also
    takes out of the text, are not part of this model. *)
Definition object_column (cells : list string) : bool :=
  match cells with
  | [] => true
  | _ => negb (forallb (fun c => match Py.float c with
                                 | Some _ => true
                                 | None => false
                                 end) cells)
  end.

End Pd.

(** ** The displacement scripts *)

(** The canonical breathing-phase sequence, as [PHASE_ORDER] of
    [displacement_plotter_realdata.py] and [phase_order] of
    [tumour_displacement.py] list it. *)
Definition PHASE_ORDER : list string :=
  ["0in"; "25in"; "50in"; "75in"; "100in"; "75ex"; "50ex"; "25ex"].

(** A row of a [structure_stats] table. *)
Record structure_row : Type := mk_structure_row {
  series_id : string;
  name : string;
  x : Q;
  y : Q;
  z : Q
}.

Definition with_series_id (r : structure_row) (s : string) : structure_row :=
  mk_structure_row s (name r) (x r) (y r) (z r).

(** *** [displacement_plotter_realdata.py] *)

Definition phase_le (r1 r2 : structure_row) : bool :=
  Pd.code_le (Pd.code PHASE_ORDER (series_id r1)) (Pd.code PHASE_ORDER (series_id r2)).

(** The table after the filter on [name], the normalisation of the labels,
    the filter on [PHASE_ORDER] and the categorical sort. *)
Definition phase_table (df : list structure_row) (tumour_name : string)
  : list structure_row :=
  let df := filter (fun r => String.eqb (name r) tumour_name) df in
  let df := map (fun r => with_series_id r (Str.lower (Str.strip (series_id r)))) df in
  let df := filter (fun r => Str.mem (series_id r) PHASE_ORDER) df in
  Pd.sort_values phase_le df.

(** [process_structure_csv(file_path, tumour_name, reference_phase)], on
    the table that [pd.read_csv(file_path)] returns; the rows hold the text
    of the cells.  The [.str] accessor raises on a [series_id] column that
    was not read as text. *)
Definition process_structure_csv (file_path : string) (df : list structure_row)
    (tumour_name reference_phase : string) : result (list (string * Q)) :=
  if negb (Pd.object_column (map series_id df)) then
    Raise (AttributeError "Can only use .str accessor with string values!")
  else
  let df := phase_table df tumour_name in
  if negb (Str.mem reference_phase (map series_id df)) then
    Raise (ValueError ("Reference phase '" ++ reference_phase
                         ++ "' not found in " ++ file_path))
  else
    match filter (fun r => String.eqb (series_id r) reference_phase) df with
    | [] => Raise (IndexError "index 0 is out of bounds for axis 0 with size 0")
    | ref :: _ =>
        let ref_z := z ref in
        Ok (map (fun r => (series_id r, (z r - ref_z)%Q)) df)
    end.

(** *** [batch_displacement_processor.py] *)

(** A row of an AmigoPy table with columns [phase], [axis], [com]. *)
Record com_row : Type := mk_com_row {
  phase : string;
  axis : string;
  com : Q
}.

(** [compute_displacement(df, reference_phase)] *)
Definition compute_displacement (df : list com_row) (reference_phase : string)
  : result (list (string * Q)) :=
  let df := filter (fun r => String.eqb (axis r) "z") df in
  let df := Pd.sort_values (fun r1 r2 => String.leb (phase r1) (phase r2)) df in
  if negb (Str.mem reference_phase (map phase df)) then
    Raise (ValueError ("Reference phase '" ++ reference_phase
                         ++ "' not found in data."))
  else
    match filter (fun r => String.eqb (phase r) reference_phase) df with
    | [] => Raise (IndexError "index 0 is out of bounds for axis 0 with size 0")
    | ref :: _ =>
        let ref_val := com ref in
        Ok (map (fun r => (phase r, (com r - ref_val)%Q)) df)
    end.

(** *** [tumour_displacement.py] *)

(** The [series_id] column after the ordering branch: a category (missing
    when the label is none of the categories), a number, or the label
    itself when no conversion took place. *)
Inductive series_key : Type :=
| Phase (label : option string)
| Number (v : Q)
| Label (s : string).

Definition tumour_names : list string :=
  ["lower_tumour"; "middle_tumour"; "upper_tumour"].

(** [(row[['x','y','z']]**2).sum()], the quantity under the root. *)
Definition sum_of_squares (r : structure_row) : Q :=
  (x r ^ 2 + y r ^ 2 + z r ^ 2)%Q.

(** [... ** 0.5] of a sum of squares. *)
Definition displacement (r : structure_row) : R :=
  sqrt (Q2R (sum_of_squares r)).

(** What one subplot shows. *)
Inductive panel : Type :=
| Plot (points : list (series_key * R))
| NoData.

Definition panel_points (p : panel) : list (series_key * R) :=
  match p with
  | Plot points => points
  | NoData => []
  end.

Definition is_phase_label (k : series_key) : bool :=
  match k with
  | Phase (Some _) => true
  | _ => false
  end.

Definition is_missing (k : series_key) : bool :=
  match k with
  | Phase None => true
  | _ => false
  end.

(** Whether [axs[i].plot] takes a column of keys as its x values: a
    category label makes the axis categorical, and a categorical axis
    refuses the missing value that stands for an unrecognised label. *)
Definition plot_accepts (keys : list series_key) : bool :=
  negb (existsb is_phase_label keys && existsb is_missing keys).

Section TumourDisplacement.

(** The built-in [float] on strings: [None] when it raises. *)
Variable py_float : string -> option Q.

Definition is_numeric (s : string) : bool :=
  match py_float s with
  | Some _ => true
  | None => false
  end.

(** Rows whose label contains "average" in any letter case are removed
    when the column holds strings. *)
Definition drop_average (df : list structure_row) : list structure_row :=
  filter (fun r => negb (Str.contains "average" (Str.lower (series_id r)))) df.

Definition existing_phases (df : list structure_row) : list string :=
  filter (fun p => Str.mem p (map series_id df)) PHASE_ORDER.

(** [pd.Categorical(df['series_id'], categories=existing_phases)] *)
Definition categorical (categories : list string) (label : string)
  : option string :=
  if Str.mem label categories then Some label else None.

(** [df['series_id'].astype(float)] *)
Fixpoint astype_float (df : list structure_row)
  : result (list (Q * structure_row)) :=
  match df with
  | [] => Ok []
  | r :: rest =>
      match py_float (series_id r) with
      | None =>
          Raise (ValueError ("could not convert string to float: '"
                               ++ series_id r ++ "'"))
      | Some v =>
          rows <- astype_float rest ;;
          Ok ((v, r) :: rows)
      end
  end.

(** The ordering branch: every row with its converted [series_id]. *)
Definition order_rows (df : list structure_row)
  : result (list (series_key * structure_row)) :=
  if negb (forallb (fun r => is_numeric (series_id r)) df) then
    let cats := existing_phases df in
    let keyed := map (fun r => (categorical cats (series_id r), r)) df in
    let sorted :=
      Pd.sort_values
        (fun a b => Pd.code_le (match fst a with Some l => Pd.code cats l | None => None end)
                               (match fst b with Some l => Pd.code cats l | None => None end))
        keyed in
    Ok (map (fun a => (Phase (fst a), snd a)) sorted)
  else if forallb (fun r => is_numeric (series_id r)) df then
    keyed <- astype_float df ;;
    Ok (map (fun a => (Number (fst a), snd a))
            (Pd.sort_values (fun a b => Qle_bool (fst a) (fst b)) keyed))
  else
    Ok (map (fun r => (Label (series_id r), r))
            (Pd.sort_values (fun r1 r2 => String.leb (series_id r1) (series_id r2)) df)).

(** What the plotting loop prepares for one tumour: the rows of the
    tumour with the displacement column computed from them, or the branch
    without data.  This is the data handed to [axs[i].plot], not the call. *)
Definition tumour_panel (df : list (series_key * structure_row))
    (tumour : string) : panel :=
  let tumour_data := filter (fun a => String.eqb (name (snd a)) tumour) df in
  match tumour_data with
  | [] => NoData
  | _ => Plot (map (fun a => (fst a, displacement (snd a))) tumour_data)
  end.

(** The body of the plotting loop: the call of [axs[i].plot] raises when
    it does not accept the keys, and nothing catches it. *)
Definition plot_tumour (df : list (series_key * structure_row))
    (tumour : string) : result panel :=
  let prepared := tumour_panel df tumour in
  if plot_accepts (map fst (panel_points prepared)) then Ok prepared
  else Raise (TypeError "'value' must be an instance of str or bytes, not a float").

(** The script, from the table read from the CSV (rows with a missing
    cell already dropped) to the three subplots. *)
Definition tumour_displacement (df : list structure_row) : result (list panel) :=
  let df := drop_average df in
  ordered <- order_rows df ;;
  for_each (plot_tumour ordered) tumour_names.

End TumourDisplacement.

(** The common tail of [process_structure_csv] and [compute_displacement]:
    look the reference up among the keys, subtract its value everywhere. *)
Definition subtract_reference {A : Type} (key : A -> string) (val : A -> Q)
    (missing : string) (rows : list A) (reference : string)
  : result (list (string * Q)) :=
  if negb (Str.mem reference (map key rows)) then
    Raise (ValueError ("Reference phase '" ++ reference ++ "' not found in " ++ missing))
  else
    match filter (fun r => String.eqb (key r) reference) rows with
    | [] => Raise (IndexError "index 0 is out of bounds for axis 0 with size 0")
    | ref :: _ => Ok (map (fun r => (key r, (val r - val ref)%Q)) rows)
    end.

(** The table [compute_displacement] works on: the rows of the z axis,
    sorted on the text of their phase. *)
Definition com_table (df : list com_row) : list com_row :=
  Pd.sort_values (fun r1 r2 => String.leb (phase r1) (phase r2))
                 (filter (fun r => String.eqb (axis r) "z") df).

(** ** Vocabulary of the specification *)

(** The number of voxels true in both masks, counted position by position. *)
Definition both_true (a b : ndarray bool) : nat :=
  List.length (filter (fun p => fst p && snd p) (combine (data a) (data b))).

(** Two calls return the same score. *)
Definition same_score (r1 r2 : result Q) : Prop :=
  match r1, r2 with
  | Ok q1, Ok q2 => q1 == q2
  | _, _ => False
  end.

(** A label with white space trimmed and letters lower-cased. *)
Definition normalize (label : string) : string := Str.lower (Str.strip label).

(** Position of a label in the canonical sequence. *)
Definition phase_position (label : string) : option nat := Pd.code PHASE_ORDER label.

(** The length of a position vector. *)
Definition euclidean_norm (X Y Z : R) : R := sqrt (X * X + Y * Y + Z * Z).

(** ** Concrete volumes and tables *)

Definition mask_2x2_a : ndarray bool :=
  mk_ndarray [2; 2]%nat [true; true; false; true].

Definition mask_2x2_b : ndarray bool :=
  mk_ndarray [2; 2]%nat [true; false; false; true].

Definition empty_mask_4x4x4 : ndarray bool :=
  mk_ndarray [4; 4; 4]%nat (repeat false 64).

(** A ground truth of 2x2x2 voxels and a prediction that holds a single
    slice, 2x2x1; every voxel is foreground in both. *)
Definition ground_truth_2x2x2 : ndarray Q :=
  mk_ndarray [2; 2; 2]%nat (repeat 1%Q 8).

Definition prediction_2x2x1 : ndarray Q :=
  mk_ndarray [2; 2; 1]%nat (repeat 1%Q 4).

(** A file system holding those two volumes. *)
Definition two_volumes (path : string) : option (ndarray Q) :=
  if String.eqb path "base/4DCT_pat11_segmentations/30_middle_tumour.nii.gz"
  then Some ground_truth_2x2x2
  else if String.eqb path "base/HS_pat11_segmentations/31_middle_tumour.nii.gz"
       then Some prediction_2x2x1
       else None.

Definition two_volumes_exist (path : string) : bool :=
  match two_volumes path with Some _ => true | None => false end.

Definition two_volumes_load (path : string) : result (ndarray Q) :=
  match two_volumes path with
  | Some vol => Ok vol
  | None => Raise (FileNotFoundError path)
  end.

(** A directory in which the summary can be written. *)
Definition writable (path : string) (rows : list chat_row) : result unit := Ok tt.

Definition posix_join (a b : string) : string := a ++ "/" ++ b.

(** Volumes with a soft value, 0.3, as a resampled mask may hold. *)
Definition soft_mask_a : ndarray Q := mk_ndarray [2]%nat [3 # 10; 1].
Definition soft_mask_b : ndarray Q := mk_ndarray [2]%nat [1; 1].



(** One breathing cycle in acquisition order, [com] growing with the index. *)
Definition cycle_com_rows : list com_row :=
  [ mk_com_row "0in" "z" 0; mk_com_row "25in" "z" 1; mk_com_row "50in" "z" 2;
    mk_com_row "75in" "z" 3; mk_com_row "100in" "z" 4; mk_com_row "75ex" "z" 5;
    mk_com_row "50ex" "z" 6; mk_com_row "25ex" "z" 7 ].

Definition cycle_rows : list structure_row :=
  map (fun r => mk_structure_row (phase r) "t1" 0 0 (com r)) cycle_com_rows.

(** Three rows of one tumour: a label that needs trimming and lower-casing,
    a canonical label, and a label that is no phase. *)
Definition unnormalized_rows : list structure_row :=
  [ mk_structure_row " 0IN" "lower_tumour" 3 4 0;
    mk_structure_row "25in" "lower_tumour" 0 0 1;
    mk_structure_row "warmup" "lower_tumour" 1 2 2 ].


(** Rows of one tumour at three canonical phases, out of order. *)
Definition canonical_rows : list structure_row :=
  [ mk_structure_row "50in" "lower_tumour" 0 0 3;
    mk_structure_row "0in" "lower_tumour" 3 4 0;
    mk_structure_row "25ex" "lower_tumour" 0 0 1 ].


(** A row at the first inhale phase, 5 mm from the origin. *)
Definition first_inhale_row : structure_row :=
  mk_structure_row "0in" "lower_tumour" 3 4 0.

(** ** Vocabulary for the further properties *)

(** Two extents that broadcasting accepts on one axis: equal, or one of
    them 1. *)
Definition compatible (d1 d2 : nat) : bool :=
  (d1 =? d2)%nat || (d1 =? 1)%nat || (d2 =? 1)%nat.

(** The extent of the [k]-th axis counted from the last one. *)
Definition extent_from_last (s : list nat) (k : nat) : nat := nth k (rev s) 0%nat.

(** What a row of [enhanced_dice_evaluation] may hold: a score with the
    note "OK", or no score with one of the two diagnostics. *)
Definition chat_row_sound (row : chat_row) : Prop :=
  match chat_dice_score row with
  | ScoreValue q => 0 <= q <= 1 /\ note row = "OK"
  | ScoreNA =>
      note row = "Missing file(s)"
      \/ Str.startswith "Shape mismatch " (note row) = true
  | ScoreError => False
  end.

(** The files of the folder that the loop of [dice_score_folder.py]
    compares: volumes, the ground truth apart. *)
Definition candidate_file (gt_filename file : string) : bool :=
  (Str.endswith ".nii" file || Str.endswith ".nii.gz" file)
  && negb (String.eqb file gt_filename).

(** The two parts the loop reads a file name into. *)
Definition file_parts (file : string) : string * option string :=
  Py.split1 "_"%char (Py.remove_all ".nii.gz" file).

(** The characters of a string. *)
Definition chars (s : string) : list ascii := list_ascii_of_string s.

(** The records of a structure whose normalised label is a canonical
    phase. *)
Definition structure_phase_rows (df : list structure_row) (tumour : string)
  : list structure_row :=
  filter (fun r => String.eqb (name r) tumour
                   && Str.mem (normalize (series_id r)) PHASE_ORDER) df.


(** The rows of a tumour that [tumour_displacement.py] plots: the label
    must not contain "average" in any letter case. *)
Definition tumour_rows (df : list structure_row) (tumour : string)
  : list structure_row :=
  filter (fun r => negb (Str.contains "average" (Str.lower (series_id r)))
                   && String.eqb (name r) tumour) df.

(** Order of two numeric keys. *)
Definition number_le (k1 k2 : series_key) : Prop :=
  match k1, k2 with
  | Number a, Number b => a <= b
  | _, _ => False
  end.

(** Canonical position of a categorical key; a missing category has none. *)
Definition key_position (k : series_key) : option nat :=
  match k with
  | Phase (Some label) => phase_position label
  | _ => None
  end.

(** Order of two categorical keys: by canonical position, a missing
    category after every phase. *)
Definition phase_key_le (k1 k2 : series_key) : Prop :=
  match k1, k2 with
  | Phase _, Phase _ => Pd.code_le (key_position k1) (key_position k2) = true
  | _, _ => False
  end.

(** ** The batch drivers of the displacement scripts *)

(** What [plot_displacement] is asked to draw and where it saves it; the
    rendering itself is not modelled and is taken not to raise. *)
Record plot : Type := mk_plot {
  plot_label : string;
  plot_data : list (string * Q);
  plot_path : string
}.

(** The effects of a run: the lines printed and the plots saved, oldest
    first. *)
Record run_log : Type := mk_run_log {
  printed : list string;
  saved : list plot
}.

Section Drivers.

(** [os.path.join] and [os.path.splitext(os.path.basename(.))[0]]. *)
Variable os_path_join : string -> string -> string.
Variable base_name_of : string -> string.

(** One iteration of the loop of [process_folder]; a file comes with what
    [pd.read_csv] does on it. *)
Definition process_folder_step (folder_path tumour_name reference_phase : string)
    (log : run_log) (entry : string * result (list structure_row)) : run_log :=
  let (csv_file, read_csv) := entry in
  match (df <- read_csv ;;
         process_structure_csv csv_file df tumour_name reference_phase) with
  | Ok df_disp =>
      let label := base_name_of csv_file in
      let plot_path :=
        os_path_join folder_path (label ++ "_disp_" ++ tumour_name ++ ".png") in
      mk_run_log (List.app (printed log) ["✅ Processed " ++ label])
                 (List.app (saved log) [mk_plot label df_disp plot_path])
  | Raise e =>
      mk_run_log
        (List.app (printed log)
                  ["❌ Error processing " ++ csv_file ++ ": " ++ exn_msg e])
        (saved log)
  end.

(** [process_folder(folder_path, tumour_name, reference_phase)], on the
    files that [glob] finds. *)
Definition process_folder (folder_path tumour_name reference_phase : string)
    (csv_files : list (string * result (list structure_row))) : run_log :=
  fold_left (process_folder_step folder_path tumour_name reference_phase) csv_files
    (mk_run_log
       ["Found " ++ Str.of_nat (List.length csv_files) ++ " CSV files to process..."]
       []).

(** One iteration of the loop of [process_displacement_folder]. *)
Definition process_displacement_folder_step (folder_path reference_phase : string)
    (log : run_log) (entry : string * result (list com_row)) : run_log :=
  let (csv_file, read_csv) := entry in
  match (df <- read_csv ;; compute_displacement df reference_phase) with
  | Ok df_disp =>
      let base_name := base_name_of csv_file in
      let output_path :=
        os_path_join folder_path (base_name ++ "_displacement_plot.png") in
      mk_run_log (List.app (printed log) ["Processed and saved plot for " ++ base_name])
                 (List.app (saved log) [mk_plot base_name df_disp output_path])
  | Raise e =>
      mk_run_log
        (List.app (printed log)
                  ["❌ Error processing " ++ csv_file ++ ": " ++ exn_msg e])
        (saved log)
  end.

(** [process_displacement_folder(folder_path, reference_phase)] *)
Definition process_displacement_folder (folder_path reference_phase : string)
    (csv_files : list (string * result (list com_row))) : run_log :=
  fold_left (process_displacement_folder_step folder_path reference_phase) csv_files
    (mk_run_log
       ["Found " ++ Str.of_nat (List.length csv_files) ++ " CSV files to process..."]
       []).

End Drivers.

(** ** The command line of [chat_dice.py] *)

(** [s.split(sep)] for a one-character separator. *)
Fixpoint py_split (sep : ascii) (s : string) : list string :=
  match s with
  | EmptyString => [EmptyString]
  | String c s' =>
      if Ascii.eqb c sep then EmptyString :: py_split sep s'
      else
        match py_split sep s' with
        | h :: t => String c h :: t
        | [] => [String c EmptyString]
        end
  end.

(** [[t.strip() for t in args.tumors.split(",")]] *)
Definition parse_tumors (tumors : string) : list string :=
  map Str.strip (py_split ","%char tumors).

(** The number of occurrences of a character. *)
Definition count_char (c : ascii) (s : string) : nat :=
  List.length (filter (Ascii.eqb c) (chars s)).

(** * Properties *)

(** ** Broadcasting two arrays of one shape *)

Section SameShape.

Lemma broadcast_rev_same (r : list nat) : broadcast_rev r r = Some r.
Proof.
  induction r as [|d r IH]; simpl; [reflexivity|].
  now rewrite IH, Nat.eqb_refl.
Qed.

Lemma broadcast_shapes_same (s : list nat) : broadcast_shapes s s = Some s.
Proof.
  unfold broadcast_shapes.
  now rewrite broadcast_rev_same; simpl; rewrite rev_involutive.
Qed.

Lemma indices_length (s idx : list nat) :
  In idx (indices s) -> List.length idx = List.length s.
Proof.
  revert idx; induction s as [|d s IH]; simpl; intros idx Hin.
  - destruct Hin as [<-|[]]; reflexivity.
  - apply in_flat_map in Hin as (i & _ & Hin).
    apply in_map_iff in Hin as (t & <- & Ht).
    simpl; f_equal; auto.
Qed.

Lemma seq_shift_add (k n : nat) : map (Nat.add k) (seq 0 n) = seq k n.
Proof.
  revert k; induction n as [|n IH]; intros k; [reflexivity|].
  rewrite !seq_S, map_app, IH; reflexivity.
Qed.

Lemma seq_blocks (m d : nat) :
  flat_map (fun i => seq (i * m) m) (seq 0 d) = seq 0 (d * m).
Proof.
  induction d as [|d IH]; [reflexivity|].
  rewrite seq_S, flat_map_app, IH; simpl.
  rewrite app_nil_r, (Nat.add_comm m), seq_app.
  reflexivity.
Qed.

(** The multi-indices of a shape enumerate the flat offsets in order. *)
Lemma ravel_indices (s : list nat) :
  map (ravel s) (indices s) = seq 0 (size_of s).
Proof.
  induction s as [|d s IH]; [reflexivity|].
  change (size_of (d :: s)) with (d * size_of s)%nat.
  rewrite <- seq_blocks.
  simpl indices.
  rewrite flat_map_concat_map, concat_map, map_map, <- flat_map_concat_map.
  assert (Hblock : forall i, In i (seq 0 d) ->
            map (ravel (d :: s)) (map (cons i) (indices s))
            = seq (i * size_of s) (size_of s)).
  { intros i Hi. rewrite map_map; simpl ravel.
    assert (Hi' : (if (d =? 1)%nat then 0%nat else i) = i).
    { destruct (Nat.eqb_spec d 1) as [->|]; [|reflexivity].
      apply in_seq in Hi; lia. }
    rewrite Hi', <- seq_shift_add, <- IH, map_map.
    reflexivity. }
  clear IH; induction (seq 0 d) as [|i l IHl]; [reflexivity|].
  simpl; rewrite Hblock by (now left).
  f_equal; apply IHl; intros; apply Hblock; now right.
Qed.

Lemma nth_seq_all {A : Type} (dflt : A) (l : list A) :
  map (fun k => nth k l dflt) (seq 0 (List.length l)) = l.
Proof.
  induction l as [|a l IH]; [reflexivity|].
  simpl; f_equal.
  rewrite <- seq_shift, map_map; exact IH.
Qed.

(** Reading an array at the indices of its own shape returns its data. *)
Lemma read_own_shape {A : Type} (dflt : A) (a : ndarray A) :
  wf a -> map (read dflt a) (indices (shape a)) = data a.
Proof.
  intros Hwf.
  transitivity (map (fun k => nth k (data a) dflt) (seq 0 (List.length (data a))));
    [|apply nth_seq_all].
  rewrite Hwf, <- ravel_indices, map_map.
  apply map_ext_in; intros idx Hin.
  unfold read.
  now rewrite (indices_length _ _ Hin), Nat.sub_diag.
Qed.

(** On equal shapes [logical_and] is the element-wise conjunction. *)
Lemma logical_and_same_shape (a b : ndarray bool) :
  wf a -> wf b -> shape a = shape b ->
  logical_and a b
  = Ok (mk_ndarray (shape a)
          (map (fun p => fst p && snd p) (combine (data a) (data b)))).
Proof.
  intros Ha Hb Hs.
  unfold logical_and.
  rewrite <- Hs, broadcast_shapes_same.
  do 2 f_equal.
  pose proof (read_own_shape false a Ha) as Ea.
  pose proof (read_own_shape false b Hb) as Eb.
  rewrite <- Hs in Eb.
  rewrite <- Ea, <- Eb; clear Ea Eb.
  induction (indices (shape a)) as [|i l IH]; simpl; [reflexivity|].
  f_equal; exact IH.
Qed.

Lemma count_true_and_l (l1 l2 : list bool) :
  (count_true (map (fun p => fst p && snd p) (combine l1 l2)) <= count_true l1)%nat.
Proof.
  unfold count_true.
  revert l2; induction l1 as [|u l1 IH]; intros [|v l2]; simpl; try lia.
  specialize (IH l2).
  destruct u, v; simpl; lia.
Qed.

Lemma count_true_and_r (l1 l2 : list bool) :
  (count_true (map (fun p => fst p && snd p) (combine l1 l2)) <= count_true l2)%nat.
Proof.
  unfold count_true.
  revert l2; induction l1 as [|u l1 IH]; intros [|v l2]; simpl; try lia.
  specialize (IH l2).
  destruct u, v; simpl; lia.
Qed.

Lemma count_true_none (l : list bool) :
  count_true l = 0%nat <-> forall v, In v l -> v = false.
Proof.
  unfold count_true; induction l as [|u l IH]; simpl.
  - split; [intros _ v []|reflexivity].
  - destruct u; simpl.
    + split; [discriminate|].
      intros Hall; specialize (Hall true (or_introl eq_refl)); discriminate.
    + rewrite IH; split.
      * intros Hall v [<-|Hv]; auto.
      * intros Hall v Hv; apply Hall; now right.
Qed.

End SameShape.

(** ** The overlap score *)

Lemma count_true_map_filter {A : Type} (f : A -> bool) (l : list A) :
  count_true (map f l) = List.length (filter f l).
Proof.
  unfold count_true; induction l as [|u l IH]; simpl; [reflexivity|].
  destruct (f u); simpl; now rewrite IH.
Qed.

Lemma astype_bool_mask (a : ndarray bool) : astype_bool a = a.
Proof.
  destruct a as [s d]; unfold astype_bool; simpl.
  f_equal; apply map_id.
Qed.

Lemma astype_bool_wf {A : Type} `{Truthy A} (a : ndarray A) :
  wf a -> wf (astype_bool a).
Proof. unfold wf; simpl; now rewrite length_map. Qed.

(** The score on arrays of one shape, with the counts spelled out. *)
Lemma dice_score_same_shape {A B : Type} `{Truthy A} `{Truthy B}
    (a : ndarray A) (b : ndarray B) :
  wf a -> wf b -> shape a = shape b ->
  dice_score a b =
  let total := (sum (astype_bool a) + sum (astype_bool b))%nat in
  if (total =? 0)%nat then Ok 1%Q
  else Ok (dice_ratio (both_true (astype_bool a) (astype_bool b)) total).
Proof.
  intros Ha Hb Hs.
  unfold dice_score.
  rewrite (logical_and_same_shape (astype_bool a) (astype_bool b))
    by (auto using astype_bool_wf).
  unfold bind, both_true, sum; simpl data.
  now rewrite (count_true_map_filter (fun p : bool * bool => fst p && snd p)).
Qed.

(** When the shapes can be broadcast, equal or not, a score comes out. *)
Lemma dice_score_broadcastable {A B : Type} `{Truthy A} `{Truthy B}
    (a : ndarray A) (b : ndarray B) (s : list nat) :
  broadcast_shapes (shape a) (shape b) = Some s ->
  exists q, dice_score a b = Ok q.
Proof.
  intros Hs; unfold dice_score, logical_and; simpl shape.
  rewrite Hs; unfold bind.
  destruct (_ =? 0)%nat; eexists; reflexivity.
Qed.

(** When they cannot, [logical_and] raises and so does [dice_score]. *)
Lemma dice_score_not_broadcastable {A B : Type} `{Truthy A} `{Truthy B}
    (a : ndarray A) (b : ndarray B) :
  broadcast_shapes (shape a) (shape b) = None ->
  exists msg, dice_score a b = Raise (ValueError msg).
Proof.
  intros Hs; unfold dice_score, logical_and; simpl shape.
  rewrite Hs; eexists; reflexivity.
Qed.

Lemma dice_ratio_bounds (i t : nat) :
  (0 < t)%nat -> (2 * i <= t)%nat -> 0 <= dice_ratio i t <= 1.
Proof.
  intros Ht Hi; unfold dice_ratio.
  assert (Hpos : 0 < inject_Z (Z.of_nat t)).
  { unfold Qlt, inject_Z; simpl; lia. }
  split.
  - apply Qle_shift_div_l; [exact Hpos|].
    unfold Qle, Qmult, inject_Z; cbn [Qnum Qden]; lia.
  - apply Qle_shift_div_r; [exact Hpos|].
    unfold Qle, Qmult, inject_Z; cbn [Qnum Qden]; lia.
Qed.

Lemma both_true_le (a b : ndarray bool) :
  (2 * both_true a b <= sum a + sum b)%nat.
Proof.
  unfold both_true, sum.
  rewrite <- count_true_map_filter.
  pose proof (count_true_and_l (data a) (data b)).
  pose proof (count_true_and_r (data a) (data b)).
  lia.
Qed.

(** C1.  For boolean arrays [a] and [b] of one shape, [dice_score a b]
    returns a number; when the two counts of true voxels do not sum to zero
    it is twice the number of voxels true in both, divided by that sum; and
    in every case it lies between 0 and 1. *)
Theorem dice_score_overlap_ratio (a b : ndarray bool) :
  wf a -> wf b -> shape a = shape b ->
  exists q : Q,
    dice_score a b = Ok q
    /\ ((sum a + sum b)%nat <> 0%nat ->
        q == 2 * inject_Z (Z.of_nat (both_true a b))
             / inject_Z (Z.of_nat (sum a + sum b)))
    /\ 0 <= q <= 1.
Proof.
  intros Ha Hb Hs.
  rewrite (dice_score_same_shape a b Ha Hb Hs), !astype_bool_mask.
  cbv zeta.
  destruct (Nat.eqb_spec (sum a + sum b) 0) as [E|NE].
  - exists 1; split; [reflexivity|split].
    + intros NE; contradiction.
    + split; discriminate.
  - exists (dice_ratio (both_true a b) (sum a + sum b)); split; [reflexivity|split].
    + intros _; reflexivity.
    + apply dice_ratio_bounds; [lia|apply both_true_le].
Qed.

Lemma dice_score_overlap_ratio_witness :
  exists q : Q,
    dice_score mask_2x2_a mask_2x2_b = Ok q
    /\ ((sum mask_2x2_a + sum mask_2x2_b)%nat <> 0%nat ->
        q == 2 * inject_Z (Z.of_nat (both_true mask_2x2_a mask_2x2_b))
             / inject_Z (Z.of_nat (sum mask_2x2_a + sum mask_2x2_b)))
    /\ 0 <= q <= 1.
Proof.
  apply (dice_score_overlap_ratio mask_2x2_a mask_2x2_b); reflexivity.
Defined.

(** C4.  Two arrays of one shape in which no voxel is true score exactly
    1.0, whatever their element type. *)
Theorem dice_score_both_empty {A B : Type} `{Truthy A} `{Truthy B}
    (a : ndarray A) (b : ndarray B) :
  wf a -> wf b -> shape a = shape b ->
  (forall v, In v (data a) -> truthy v = false) ->
  (forall v, In v (data b) -> truthy v = false) ->
  dice_score a b = Ok 1%Q.
Proof.
  intros Ha Hb Hs Ea Eb.
  rewrite (dice_score_same_shape a b Ha Hb Hs); cbv zeta.
  assert (Za : sum (astype_bool a) = 0%nat).
  { apply count_true_none; simpl; intros v Hv.
    apply in_map_iff in Hv as (u & <- & Hu); auto. }
  assert (Zb : sum (astype_bool b) = 0%nat).
  { apply count_true_none; simpl; intros v Hv.
    apply in_map_iff in Hv as (u & <- & Hu); auto. }
  now rewrite Za, Zb.
Qed.

Lemma dice_score_both_empty_witness :
  dice_score empty_mask_4x4x4 empty_mask_4x4x4 = Ok 1%Q.
Proof.
  apply (dice_score_both_empty empty_mask_4x4x4 empty_mask_4x4x4);
    try reflexivity;
    intros v Hv; apply repeat_spec in Hv; exact Hv.
Defined.

(** ** Shape mismatch in the batch drivers *)

Section ChatDiceProperties.

Variable os_path_join : string -> string -> string.
Variable os_path_exists : string -> bool.
Variable load_nifti : string -> result (ndarray Q).

Lemma shape_eqb_false (s1 s2 : list nat) : s1 <> s2 -> shape_eqb s1 s2 = false.
Proof.
  intros Hne; unfold shape_eqb.
  destruct (list_eq_dec Nat.eq_dec s1 s2); [contradiction|reflexivity].
Qed.

(** [enhanced_dice_evaluation] checks the shapes itself: when both files
    exist and their volumes differ in shape, the row carries ["N/A"] and a
    "Shape mismatch" note, and [dice_score] is not called. *)
Lemma evaluate_tumor_shape_mismatch
    (base_dir dir1 series1 dir2 series2 tumour : string) (vol1 vol2 : ndarray Q) :
  let path1 := os_path_join (os_path_join base_dir dir1)
                            (series1 ++ "_" ++ tumour ++ ".nii.gz") in
  let path2 := os_path_join (os_path_join base_dir dir2)
                            (series2 ++ "_" ++ tumour ++ ".nii.gz") in
  os_path_exists path1 = true ->
  os_path_exists path2 = true ->
  load_nifti path1 = Ok vol1 ->
  load_nifti path2 = Ok vol2 ->
  shape vol1 <> shape vol2 ->
  evaluate_tumor os_path_join os_path_exists load_nifti
    base_dir dir1 series1 dir2 series2 tumour
  = Ok (mk_chat_row tumour path1 path2 ScoreNA
          ("Shape mismatch " ++ shape_repr (shape vol1) ++ " vs "
             ++ shape_repr (shape vol2))).
Proof.
  intros path1 path2 E1 E2 H1 H2 Hne.
  unfold evaluate_tumor.
  fold path1; fold path2.
  rewrite E1, E2, H1, H2; simpl.
  now rewrite (shape_eqb_false _ _ Hne).
Qed.

End ChatDiceProperties.

(** The loop of [dice_score_folder.py] leaves the shapes to NumPy: a
    prediction whose shape cannot be broadcast against the ground truth
    ends in an ["ERROR"] row. *)
Lemma folder_step_not_broadcastable (volume_df : list volume_row)
    (gt_mask : ndarray bool) (gt_filename file : string) (vol : ndarray Q) :
  Str.endswith ".nii.gz" file = true ->
  String.eqb file gt_filename = false ->
  broadcast_shapes (shape gt_mask) (shape vol) = None ->
  exists msg,
    folder_step volume_df gt_mask gt_filename (file, Ok vol)
    = [mk_folder_row file ScoreError (ItvText msg)].
Proof.
  intros Hext Hgt Hs; unfold folder_step.
  rewrite Hext, orb_true_r, Hgt; simpl negb; cbv iota.
  unfold compare_file; simpl bind.
  destruct (dice_score_not_broadcastable gt_mask (gt vol (1 # 2)) Hs) as (msg & ->).
  simpl; eexists; reflexivity.
Qed.

(** C2.  The loop of [dice_score_folder.py] has no shape check of its own.
    For the 2x2x2 ground truth and the 2x2x1 prediction, whose shapes
    differ, NumPy stretches the slice and the loop writes a score, 1.3333,
    into the summary, while [enhanced_dice_evaluation] records a shape
    mismatch for the same two volumes. *)
Theorem dice_score_folder_scores_shape_mismatch :
  wf ground_truth_2x2x2 /\ wf prediction_2x2x1
  /\ shape ground_truth_2x2x2 <> shape prediction_2x2x1
  /\ dice_score_folder [] ground_truth_2x2x2 "30_middle_tumour.nii.gz"
       [("31_middle_tumour.nii.gz", Ok prediction_2x2x1)]
     = [mk_folder_row "31_middle_tumour.nii.gz"
          (ScoreValue (13333 # 10000)) ItvNA]
  /\ dice_score (gt ground_truth_2x2x2 (1 # 2)) (gt prediction_2x2x1 (1 # 2))
     = Ok (16 # 12)
  /\ enhanced_dice_evaluation posix_join two_volumes_exist two_volumes_load writable
       "base" "4DCT" "30" "HS" "31" ["middle_tumour"] "11"
     = Ok [mk_chat_row "middle_tumour"
             "base/4DCT_pat11_segmentations/30_middle_tumour.nii.gz"
             "base/HS_pat11_segmentations/31_middle_tumour.nii.gz"
             ScoreNA "Shape mismatch (2, 2, 2) vs (2, 2, 1)"].
Proof.
  repeat split; try reflexivity.
  discriminate.
Qed.

(** ** Truthiness cast against the 0.5 threshold *)

Lemma truthy_positive (v : Q) : 0 < v -> truthy v = true.
Proof.
  intros Hv; unfold truthy, truthy_Q.
  destruct (Qeq_bool v 0) eqn:E; [|reflexivity].
  apply Qeq_bool_iff in E; rewrite E in Hv.
  exfalso; exact (Qlt_irrefl 0 Hv).
Qed.

Lemma above_half_truthy (v : Q) :
  negb (Qle_bool v (1 # 2)) = true -> truthy v = true.
Proof.
  intros Hv; apply truthy_positive.
  destruct (Qle_bool v (1 # 2)) eqn:E; [discriminate|].
  apply Qnot_le_lt; intros Hle.
  assert (Hhalf : Qle_bool v (1 # 2) = true).
  { apply Qle_bool_iff; apply Qle_trans with 0; [exact Hle|discriminate]. }
  congruence.
Qed.

(** The thresholded mask never has more foreground than the cast one, and
    has strictly less as soon as one value lies in (0, 0.5]. *)
Lemma threshold_count_le (l : list Q) :
  (count_true (map (fun v => negb (Qle_bool v (1 # 2))) l)
   <= count_true (map truthy l))%nat.
Proof.
  rewrite !count_true_map_filter.
  induction l as [|u l IH]; simpl; [lia|].
  destruct (negb (Qle_bool u (1 # 2))) eqn:E.
  - rewrite (above_half_truthy u E); simpl; lia.
  - destruct (truthy u); simpl; lia.
Qed.

Lemma threshold_count_lt (l : list Q) (v : Q) :
  In v l -> 0 < v -> v <= 1 # 2 ->
  (count_true (map (fun v => negb (Qle_bool v (1 # 2))) l)
   < count_true (map truthy l))%nat.
Proof.
  intros Hin Hpos Hle.
  induction l as [|u l IH]; [contradiction|].
  pose proof (threshold_count_le l) as Hl.
  rewrite !count_true_map_filter in *; simpl.
  destruct Hin as [->|Hin].
  - rewrite (truthy_positive v Hpos).
    apply Qle_bool_iff in Hle; rewrite Hle; simpl; lia.
  - specialize (IH Hin).
    destruct (negb (Qle_bool u (1 # 2))) eqn:E.
    + rewrite (above_half_truthy u E); simpl; lia.
    + destruct (truthy u); simpl; lia.
Qed.

(** Casting before the call changes nothing: the cast inside [dice_score]
    is the only binarisation it applies. *)
Lemma dice_score_cast_inside {A B : Type} `{Truthy A} `{Truthy B}
    (seg1 : ndarray A) (seg2 : ndarray B) :
  dice_score seg1 seg2 = dice_score (astype_bool seg1) (astype_bool seg2).
Proof.
  unfold dice_score; now rewrite !astype_bool_mask.
Qed.

(** C10, as stated, fails: [soft_mask_a] holds the value 0.3, yet scoring it
    against itself gives 1.0 with the cast and 1.0 with the threshold. *)
Lemma truthiness_score_not_always_different :
  ~ (forall seg1 seg2 : ndarray Q,
       wf seg1 -> wf seg2 -> shape seg1 = shape seg2 ->
       (exists v, In v (data seg1) /\ 0 < v /\ v <= 1 # 2) ->
       ~ same_score (dice_score seg1 seg2)
                    (dice_score (gt seg1 (1 # 2)) (gt seg2 (1 # 2)))).
Proof.
  intros Hall.
  assert (Hsoft : exists v, In v (data soft_mask_a) /\ 0 < v /\ v <= 1 # 2).
  { exists (3 # 10); split; [now left|split; [reflexivity|discriminate]]. }
  apply (Hall soft_mask_a soft_mask_a eq_refl eq_refl eq_refl Hsoft).
  vm_compute; reflexivity.
Qed.

(** C10, amended.  [dice_score] binarises by truth value and by nothing
    else; a voxel whose value lies in (0, 0.5] is foreground for the cast and
    background for the threshold, so an array holding such a value has
    strictly more foreground voxels inside [dice_score] than its 0.5 mask
    has.  The score can differ from the thresholded one ([soft_mask_a]
    against [soft_mask_b]: 1.0 instead of 2/3) and need not (an array
    against itself scores 1.0 both ways). *)
Theorem dice_score_truthiness_cast (seg1 seg2 : ndarray Q) (v : Q) :
  In v (data seg1) -> 0 < v -> v <= 1 # 2 ->
  dice_score seg1 seg2 = dice_score (astype_bool seg1) (astype_bool seg2)
  /\ truthy v = true
  /\ negb (Qle_bool v (1 # 2)) = false
  /\ (sum (gt seg1 (1 # 2)) < sum (astype_bool seg1))%nat
  /\ (dice_score soft_mask_a soft_mask_b = Ok (4 # 4)
      /\ dice_score (gt soft_mask_a (1 # 2)) (gt soft_mask_b (1 # 2)) = Ok (2 # 3)
      /\ ~ same_score (dice_score soft_mask_a soft_mask_b)
             (dice_score (gt soft_mask_a (1 # 2)) (gt soft_mask_b (1 # 2))))
  /\ same_score (dice_score soft_mask_a soft_mask_a)
       (dice_score (gt soft_mask_a (1 # 2)) (gt soft_mask_a (1 # 2))).
Proof.
  intros Hin Hpos Hle.
  split; [apply dice_score_cast_inside|].
  split; [now apply truthy_positive|].
  split; [apply Qle_bool_iff in Hle; now rewrite Hle|].
  split; [unfold sum; simpl; now apply (threshold_count_lt _ v)|].
  split; [|vm_compute; reflexivity].
  split; [reflexivity|split; [reflexivity|]].
  vm_compute; discriminate.
Qed.

Lemma dice_score_truthiness_cast_witness :
  dice_score soft_mask_a soft_mask_b
  = dice_score (astype_bool soft_mask_a) (astype_bool soft_mask_b)
  /\ truthy (3 # 10) = true
  /\ negb (Qle_bool (3 # 10) (1 # 2)) = false
  /\ (sum (gt soft_mask_a (1 # 2)) < sum (astype_bool soft_mask_a))%nat
  /\ (dice_score soft_mask_a soft_mask_b = Ok (4 # 4)
      /\ dice_score (gt soft_mask_a (1 # 2)) (gt soft_mask_b (1 # 2)) = Ok (2 # 3)
      /\ ~ same_score (dice_score soft_mask_a soft_mask_b)
             (dice_score (gt soft_mask_a (1 # 2)) (gt soft_mask_b (1 # 2))))
  /\ same_score (dice_score soft_mask_a soft_mask_a)
       (dice_score (gt soft_mask_a (1 # 2)) (gt soft_mask_a (1 # 2))).
Proof.
  apply (dice_score_truthiness_cast soft_mask_a soft_mask_b (3 # 10)).
  - now left.
  - reflexivity.
  - discriminate.
Defined.

(** ** Sorting a table *)

Section SortValues.

Context {A : Type} (le : A -> A -> bool).

Lemma insert_by_perm (a : A) (l : list A) :
  Permutation (Pd.insert_by le a l) (a :: l).
Proof.
  induction l as [|b l IH]; simpl; [reflexivity|].
  destruct (le a b); [reflexivity|].
  rewrite IH; apply perm_swap.
Qed.

Lemma sort_values_perm (l : list A) : Permutation (Pd.sort_values le l) l.
Proof.
  induction l as [|a l IH]; simpl; [reflexivity|].
  now rewrite insert_by_perm, IH.
Qed.

Lemma sort_values_in (l : list A) (a : A) :
  In a (Pd.sort_values le l) <-> In a l.
Proof.
  split; apply Permutation_in;
    [apply sort_values_perm|symmetry; apply sort_values_perm].
Qed.

Hypothesis le_total : forall a b, le a b = true \/ le b a = true.

Lemma insert_by_sorted (a : A) (l : list A) :
  Sorted (fun u v => le u v = true) l ->
  Sorted (fun u v => le u v = true) (Pd.insert_by le a l).
Proof.
  induction l as [|b l IH]; simpl; intros Hs.
  - repeat constructor.
  - destruct (le a b) eqn:E.
    + constructor; [exact Hs|constructor; exact E].
    + apply Sorted_inv in Hs as [Hs Hhd].
      constructor; [apply IH, Hs|].
      destruct l as [|c l]; simpl.
      * constructor. destruct (le_total a b); congruence.
      * destruct (le a c); constructor.
        -- destruct (le_total a b); congruence.
        -- now inversion Hhd.
Qed.

Lemma sort_values_sorted (l : list A) :
  Sorted (fun u v => le u v = true) (Pd.sort_values le l).
Proof.
  induction l as [|a l IH]; simpl; [constructor|].
  now apply insert_by_sorted.
Qed.

End SortValues.

Lemma Sorted_map {A B : Type} (f : A -> B) (R : B -> B -> Prop) (l : list A) :
  Sorted (fun u v => R (f u) (f v)) l -> Sorted R (map f l).
Proof.
  induction 1 as [|a l Hs IH Hhd]; simpl; constructor; [exact IH|].
  destruct Hhd; simpl; constructor; assumption.
Qed.

Lemma code_le_total (a b : option nat) :
  Pd.code_le a b = true \/ Pd.code_le b a = true.
Proof.
  destruct a as [i|], b as [j|]; simpl; auto.
  destruct (Nat.leb_spec i j); [now left|right].
  apply Nat.leb_le; lia.
Qed.

Lemma mem_In (v : string) (l : list string) : Str.mem v l = true <-> In v l.
Proof.
  unfold Str.mem; rewrite existsb_exists; split.
  - intros (u & Hu & E); apply String.eqb_eq in E; now subst.
  - intros Hv; exists v; split; [exact Hv|apply String.eqb_refl].
Qed.

Lemma mem_not_In (v : string) (l : list string) : Str.mem v l = false <-> ~ In v l.
Proof.
  rewrite <- mem_In; destruct (Str.mem v l); split; congruence.
Qed.

(** ** Strings inside strings *)



Lemma startswith_refl (p : string) : Str.startswith p p = true.
Proof.
  induction p as [|c p IH]; simpl; [reflexivity|].
  now rewrite Ascii.eqb_refl.
Qed.


Lemma append_assoc_str (a b c : string) : (a ++ b) ++ c = a ++ (b ++ c).
Proof.
  induction a as [|ch a IH]; simpl; [reflexivity|now rewrite IH].
Qed.

Lemma lower_ascii_space (c : ascii) : Str.is_space (Str.lower_ascii c) = Str.is_space c.
Proof. destruct c as [[] [] [] [] [] [] [] []]; reflexivity. Qed.



Lemma lower_lstrip (s : string) : Str.lower (Str.lstrip s) = Str.lstrip (Str.lower s).
Proof.
  induction s as [|c s IH]; simpl; [reflexivity|].
  rewrite lower_ascii_space; destruct (Str.is_space c); [exact IH|reflexivity].
Qed.

Lemma lower_rstrip (s : string) : Str.lower (Str.rstrip s) = Str.rstrip (Str.lower s).
Proof.
  induction s as [|c s IH]; simpl; [reflexivity|].
  rewrite <- IH, lower_ascii_space.
  destruct (Str.rstrip s) as [|d r]; simpl; [|reflexivity].
  destruct (Str.is_space c); reflexivity.
Qed.

Lemma rstrip_idem (s : string) : Str.rstrip (Str.rstrip s) = Str.rstrip s.
Proof.
  induction s as [|c s IH]; simpl; [reflexivity|].
  destruct (Str.rstrip s) as [|d r] eqn:E.
  - destruct (Str.is_space c) eqn:Ec; simpl; [reflexivity|now rewrite Ec].
  - change (Str.rstrip (String c (String d r)))
      with (match Str.rstrip (String d r) with
            | EmptyString => if Str.is_space c then EmptyString else String c EmptyString
            | String a b => String c (String a b)
            end).
    now rewrite IH.
Qed.

Lemma lstrip_rstrip_lstrip (s : string) :
  Str.lstrip (Str.rstrip (Str.lstrip s)) = Str.rstrip (Str.lstrip s).
Proof.
  induction s as [|c s IH]; simpl; [reflexivity|].
  destruct (Str.is_space c) eqn:Ec; [exact IH|].
  simpl.
  destruct (Str.rstrip s) as [|d r]; rewrite ?Ec; simpl; rewrite ?Ec; reflexivity.
Qed.

Lemma strip_idem (s : string) : Str.strip (Str.strip s) = Str.strip s.
Proof.
  unfold Str.strip; now rewrite lstrip_rstrip_lstrip, rstrip_idem.
Qed.


(** ** Reading a label as a number *)

Lemma lower_ascii_eqb_minus (c : ascii) :
  Ascii.eqb (Str.lower_ascii c) "-" = Ascii.eqb c "-".
Proof. destruct c as [[] [] [] [] [] [] [] []]; reflexivity. Qed.

Lemma lower_ascii_eqb_plus (c : ascii) :
  Ascii.eqb (Str.lower_ascii c) "+" = Ascii.eqb c "+".
Proof. destruct c as [[] [] [] [] [] [] [] []]; reflexivity. Qed.

Lemma lower_ascii_eqb_dot (c : ascii) :
  Ascii.eqb (Str.lower_ascii c) "." = Ascii.eqb c ".".
Proof. destruct c as [[] [] [] [] [] [] [] []]; reflexivity. Qed.

Lemma lower_ascii_digit (c : ascii) :
  Py.digit_of (Str.lower_ascii c) = Py.digit_of c.
Proof. destruct c as [[] [] [] [] [] [] [] []]; reflexivity. Qed.

Lemma lower_length (s : string) : String.length (Str.lower s) = String.length s.
Proof. induction s as [|c s IH]; simpl; [reflexivity|now rewrite IH]. Qed.

Lemma lower_digits_value (s : string) (acc : Z) :
  Py.digits_value acc (Str.lower s) = Py.digits_value acc s.
Proof.
  revert acc; induction s as [|c s IH]; intros acc; simpl; [reflexivity|].
  rewrite lower_ascii_digit.
  destruct (Py.digit_of c); [apply IH|reflexivity].
Qed.

Lemma lower_split1 (s : string) :
  Py.split1 "." (Str.lower s)
  = (Str.lower (fst (Py.split1 "." s)), option_map Str.lower (snd (Py.split1 "." s))).
Proof.
  induction s as [|c s IH]; simpl; [reflexivity|].
  rewrite lower_ascii_eqb_dot.
  destruct (Ascii.eqb c "."); [reflexivity|].
  rewrite IH.
  destruct (Py.split1 "." s) as [h t]; reflexivity.
Qed.

Lemma lower_float_unsigned (t : string) :
  Py.float_unsigned (Str.lower t) = Py.float_unsigned t.
Proof.
  unfold Py.float_unsigned.
  rewrite lower_split1.
  destruct (Py.split1 "." t) as [ip rest]; simpl fst; simpl snd.
  destruct rest as [fp|]; simpl option_map.
  - rewrite !lower_digits_value, lower_length.
    destruct ip, fp; reflexivity.
  - rewrite !lower_digits_value.
    destruct ip; reflexivity.
Qed.

Lemma lower_float_signed (t : string) :
  Py.float_signed (Str.lower t) = Py.float_signed t.
Proof.
  destruct t as [|c u]; [reflexivity|].
  change (Str.lower (String c u)) with (String (Str.lower_ascii c) (Str.lower u)).
  unfold Py.float_signed.
  rewrite lower_ascii_eqb_minus, lower_ascii_eqb_plus.
  change (String (Str.lower_ascii c) (Str.lower u)) with (Str.lower (String c u)).
  now rewrite !lower_float_unsigned.
Qed.

Lemma lower_strip (s : string) : Str.lower (Str.strip s) = Str.strip (Str.lower s).
Proof. unfold Str.strip; now rewrite lower_rstrip, lower_lstrip. Qed.

(** Trimming and lower-casing a label changes nothing in how it reads as a
    number. *)
Lemma float_normalize (s : string) : Py.float (normalize s) = Py.float s.
Proof.
  unfold Py.float, normalize.
  now rewrite <- lower_strip, strip_idem, lower_float_signed.
Qed.

Lemma float_canonical (label : string) :
  In label PHASE_ORDER -> Py.float label = None.
Proof.
  intros Hin; simpl in Hin.
  repeat (destruct Hin as [<- | Hin]; [reflexivity|]); contradiction.
Qed.

(** A column with a cell that normalises to a canonical phase is text. *)
Lemma object_column_canonical (cells : list string) (c : string) :
  In c cells -> In (normalize c) PHASE_ORDER -> Pd.object_column cells = true.
Proof.
  intros Hin Hcanon; unfold Pd.object_column.
  destruct cells as [|c0 cells]; [reflexivity|].
  apply negb_true_iff.
  destruct (forallb _ (c0 :: cells)) eqn:E; [|reflexivity].
  rewrite forallb_forall in E; specialize (E c Hin).
  now rewrite <- float_normalize, (float_canonical _ Hcanon) in E.
Qed.


(** ** Phase-ordered tables *)

Lemma phase_le_total (r1 r2 : structure_row) :
  phase_le r1 r2 = true \/ phase_le r2 r1 = true.
Proof. apply code_le_total. Qed.

(** The rows of [phase_table] are the rows of the structure whose
    normalised label is a canonical phase, each carrying that label: the
    labels are trimmed and lower-cased before they are matched, and a row
    whose normalised label is no canonical phase is dropped. *)
Lemma phase_table_in (df : list structure_row) (tumour : string) (r' : structure_row) :
  In r' (phase_table df tumour) <->
  exists r, In r df /\ name r = tumour
            /\ In (normalize (series_id r)) PHASE_ORDER
            /\ r' = with_series_id r (normalize (series_id r)).
Proof.
  unfold phase_table.
  rewrite sort_values_in, filter_In, in_map_iff, mem_In.
  split.
  - intros ((r & <- & Hr) & Hmem).
    apply filter_In in Hr as (Hr & Hn); apply String.eqb_eq in Hn.
    exists r; repeat split; auto.
  - intros (r & Hr & Hn & Hp & ->); split; [|exact Hp].
    exists r; split; [reflexivity|].
    apply filter_In; split; [exact Hr|now apply String.eqb_eq].
Qed.

Lemma phase_table_labels (df : list structure_row) (tumour label : string) :
  In label (map series_id (phase_table df tumour)) -> In label PHASE_ORDER.
Proof.
  intros Hin; apply in_map_iff in Hin as (r' & <- & Hr').
  apply phase_table_in in Hr' as (r & _ & _ & Hp & ->); exact Hp.
Qed.

(** The labels of [phase_table] never go down in the canonical sequence. *)
Lemma phase_table_sorted (df : list structure_row) (tumour : string) :
  Sorted (fun l1 l2 => Pd.code_le (phase_position l1) (phase_position l2) = true)
         (map series_id (phase_table df tumour)).
Proof.
  apply Sorted_map; unfold phase_table.
  apply (sort_values_sorted phase_le phase_le_total).
Qed.

(** ** Resolving the reference and subtracting it *)

Section Reference.

Context {A : Type} (key : A -> string) (val : A -> Q).

Lemma subtract_reference_absent (missing : string) (rows : list A) (reference : string) :
  ~ In reference (map key rows) ->
  subtract_reference key val missing rows reference
  = Raise (ValueError ("Reference phase '" ++ reference ++ "' not found in " ++ missing)).
Proof.
  intros Habs; unfold subtract_reference.
  apply mem_not_In in Habs; now rewrite Habs.
Qed.

Lemma subtract_reference_present (missing : string) (rows : list A) (reference : string) :
  In reference (map key rows) ->
  exists ref, In ref rows /\ key ref = reference
    /\ subtract_reference key val missing rows reference
       = Ok (map (fun r => (key r, (val r - val ref)%Q)) rows).
Proof.
  intros Hin; unfold subtract_reference.
  pose proof Hin as Hmem; apply mem_In in Hmem; rewrite Hmem; simpl.
  apply in_map_iff in Hin as (r0 & Hk & Hr0).
  assert (Hf : In r0 (filter (fun r => String.eqb (key r) reference) rows)).
  { apply filter_In; split; [exact Hr0|now apply String.eqb_eq]. }
  destruct (filter (fun r => String.eqb (key r) reference) rows) as [|ref rest] eqn:E;
    [contradiction|].
  assert (Href : In ref (filter (fun r => String.eqb (key r) reference) rows))
    by (rewrite E; now left).
  apply filter_In in Href as (Href & Hkey); apply String.eqb_eq in Hkey.
  exists ref; auto.
Qed.

End Reference.

(** On a table whose [series_id] column was read as text, the rest of
    [process_structure_csv] runs on the phase table of the structure. *)
Lemma process_structure_csv_tail (file_path : string) (df : list structure_row)
    (tumour reference : string) :
  Pd.object_column (map series_id df) = true ->
  process_structure_csv file_path df tumour reference
  = subtract_reference series_id z file_path (phase_table df tumour) reference.
Proof. intros Hobj; unfold process_structure_csv; now rewrite Hobj. Qed.

(** On a table whose [series_id] column was read as numbers, the [.str]
    accessor raises. *)
Lemma process_structure_csv_numeric (file_path : string) (df : list structure_row)
    (tumour reference : string) :
  Pd.object_column (map series_id df) = false ->
  process_structure_csv file_path df tumour reference
  = Raise (AttributeError "Can only use .str accessor with string values!").
Proof. intros Hobj; unfold process_structure_csv; now rewrite Hobj. Qed.

(** A table with a row of a canonical phase has a text [series_id] column. *)
Lemma canonical_row_object_column (df : list structure_row) (r : structure_row) :
  In r df -> In (normalize (series_id r)) PHASE_ORDER ->
  Pd.object_column (map series_id df) = true.
Proof.
  intros Hin Hcanon.
  apply (object_column_canonical _ (series_id r)); [|exact Hcanon].
  apply in_map; exact Hin.
Qed.

Lemma phase_table_object_column (df : list structure_row) (tumour label : string) :
  In label (map series_id (phase_table df tumour)) ->
  Pd.object_column (map series_id df) = true.
Proof.
  intros Hin; apply in_map_iff in Hin as (r' & _ & Hr').
  apply phase_table_in in Hr' as (r & Hr & _ & Hp & _).
  exact (canonical_row_object_column df r Hr Hp).
Qed.

Lemma compute_displacement_tail (df : list com_row) (reference : string) :
  compute_displacement df reference
  = subtract_reference phase com "data." (com_table df) reference.
Proof. reflexivity. Qed.

(** ** Displacement along z *)



(** ** Reference not found *)




(** ** Order of the phases *)

(** [process_structure_csv] returns its labels in canonical order, all of
    them canonical phases. *)
Lemma process_structure_csv_canonical_order
    (file_path : string) (df : list structure_row) (tumour reference : string)
    (out : list (string * Q)) :
  process_structure_csv file_path df tumour reference = Ok out ->
  Sorted (fun l1 l2 => Pd.code_le (phase_position l1) (phase_position l2) = true)
         (map fst out)
  /\ (forall l, In l (map fst out) -> In l PHASE_ORDER).
Proof.
  destruct (Pd.object_column (map series_id df)) eqn:Hobj;
    [|now rewrite process_structure_csv_numeric].
  rewrite process_structure_csv_tail by exact Hobj; unfold subtract_reference.
  destruct (negb _); [discriminate|].
  destruct (filter _ _) as [|ref rest]; [discriminate|].
  intros [= <-].
  rewrite map_map; simpl.
  split; [apply phase_table_sorted|apply phase_table_labels].
Qed.

Lemma Permutation_length_3_inv {A : Type} (a b c : A) (l : list A) :
  Permutation l [a; b; c] ->
  l = [a; b; c] \/ l = [a; c; b] \/ l = [b; a; c]
  \/ l = [b; c; a] \/ l = [c; a; b] \/ l = [c; b; a].
Proof.
  intros HP.
  pose proof (Permutation_length HP) as Hlen.
  destruct l as [|u [|v [|w [|? ?]]]]; try discriminate; clear Hlen.
  assert (Hu : In u [a; b; c]) by (apply (Permutation_in _ HP); now left).
  destruct Hu as [<-|[<-|[<-|[]]]].
  - apply Permutation_cons_inv, Permutation_length_2_inv in HP.
    destruct HP as [ [= -> ->] | [= -> ->] ]; auto.
  - assert (HP' : Permutation (b :: [v; w]) (b :: [a; c])).
    { rewrite HP; apply perm_swap. }
    apply Permutation_cons_inv, Permutation_length_2_inv in HP'.
    destruct HP' as [ [= -> ->] | [= -> ->] ]; auto 6.
  - assert (HP' : Permutation (c :: [v; w]) (c :: [a; b])).
    { rewrite HP.
      apply Permutation_trans with [a; c; b]; [|apply perm_swap].
      apply perm_skip, perm_swap. }
    apply Permutation_cons_inv, Permutation_length_2_inv in HP'.
    destruct HP' as [ [= -> ->] | [= -> ->] ]; auto 7.
Qed.

(** Rows labelled "50in", "0in" and "25in", in whatever order the table
    lists them, leave [process_structure_csv] in the order "0in", "25in",
    "50in". *)
Lemma process_structure_csv_three_phases
    (file_path : string) (z0 z25 z50 : Q) (df : list structure_row) :
  Permutation df [ mk_structure_row "50in" "t1" 0 0 z50;
                   mk_structure_row "0in" "t1" 0 0 z0;
                   mk_structure_row "25in" "t1" 0 0 z25 ] ->
  process_structure_csv file_path df "t1" "0in"
  = Ok [("0in", z0 - z0); ("25in", z25 - z0); ("50in", z50 - z0)].
Proof.
  intros HP; apply Permutation_length_3_inv in HP.
  destruct HP as [-> | [-> | [-> | [-> | [-> | ->]]]]]; reflexivity.
Qed.

(** [compute_displacement] returns its labels in the order of strings,
    whatever the table. *)
Lemma compute_displacement_string_order
    (df : list com_row) (reference : string) (out : list (string * Q)) :
  compute_displacement df reference = Ok out ->
  Sorted (fun l1 l2 => String.leb l1 l2 = true) (map fst out).
Proof.
  rewrite compute_displacement_tail; unfold subtract_reference.
  destruct (negb _); [discriminate|].
  destruct (filter _ _) as [|ref rest]; [discriminate|].
  intros [= <-].
  rewrite map_map; simpl.
  apply Sorted_map; unfold com_table.
  apply (sort_values_sorted (fun r1 r2 => String.leb (phase r1) (phase r2))).
  intros r1 r2; apply String.leb_total.
Qed.

(** C3.  [compute_displacement] sorts the text of the phase column.  One
    breathing cycle, given in acquisition order with reference "0in",
    comes back as 0in, 100in, 25ex, 25in, 50ex, 50in, 75ex, 75in, which is
    the order of the labels as strings and not the canonical sequence;
    [process_structure_csv] returns the same cycle in canonical order. *)
Theorem compute_displacement_sorts_lexically :
  map phase cycle_com_rows = PHASE_ORDER
  /\ compute_displacement cycle_com_rows "0in"
     = Ok [("0in", 0); ("100in", 4); ("25ex", 7); ("25in", 1);
           ("50ex", 6); ("50in", 2); ("75ex", 5); ("75in", 3)]
  /\ phase_position "100in" = Some 4%nat
  /\ phase_position "25in" = Some 1%nat
  /\ process_structure_csv "structure_stats_1.csv" cycle_rows "t1" "0in"
     = Ok [("0in", 0); ("25in", 1); ("50in", 2); ("75in", 3);
           ("100in", 4); ("75ex", 5); ("50ex", 6); ("25ex", 7)].
Proof. repeat split; reflexivity. Qed.

(** ** The ordering branch of [tumour_displacement.py] *)

Section TumourDisplacementProperties.

Variable py_float : string -> option Q.

Lemma astype_float_total (df : list structure_row) :
  forallb (fun r => is_numeric py_float (series_id r)) df = true ->
  exists keyed, astype_float py_float df = Ok keyed /\ map snd keyed = df.
Proof.
  induction df as [|r df IH]; simpl; intros Hall.
  - exists []; auto.
  - apply andb_true_iff in Hall as (Hr & Hall).
    unfold is_numeric in Hr.
    destruct (py_float (series_id r)) as [v|]; [|discriminate].
    destruct (IH Hall) as (keyed & -> & Hk); simpl.
    exists ((v, r) :: keyed); simpl; now rewrite Hk.
Qed.

(** The ordering branch raises nothing and keeps every row it is given. *)
Lemma order_rows_total (df : list structure_row) :
  exists ordered,
    order_rows py_float df = Ok ordered /\ Permutation (map snd ordered) df.
Proof.
  unfold order_rows.
  destruct (forallb (fun r => is_numeric py_float (series_id r)) df) eqn:E; simpl.
  - destruct (astype_float_total df E) as (keyed & -> & Hk); simpl.
    eexists; split; [reflexivity|].
    rewrite map_map; simpl.
    rewrite <- Hk.
    apply (Permutation_map snd), sort_values_perm.
  - eexists; split; [reflexivity|].
    rewrite map_map; simpl.
    rewrite sort_values_perm, map_map; simpl.
    now rewrite map_id.
Qed.

(** With a key that is not numeric the phase branch runs. *)
Lemma order_rows_not_numeric (df : list structure_row) (bad : structure_row) :
  In bad df -> is_numeric py_float (series_id bad) = false ->
  exists ordered,
    order_rows py_float df = Ok ordered
    /\ Permutation (map snd ordered) df
    /\ (forall k r, In (k, r) ordered ->
          k = Phase (categorical (existing_phases df) (series_id r))).
Proof.
  intros Hin Hbad; unfold order_rows.
  assert (E : forallb (fun r => is_numeric py_float (series_id r)) df = false).
  { apply not_true_is_false; intros Hall.
    rewrite forallb_forall in Hall; specialize (Hall bad Hin); congruence. }
  rewrite E; simpl.
  eexists; split; [reflexivity|split].
  - rewrite map_map; simpl.
    rewrite sort_values_perm, map_map; simpl.
    now rewrite map_id.
  - intros k r Hk.
    apply in_map_iff in Hk as ([c r'] & [= <- <-] & Hs).
    apply sort_values_in, in_map_iff in Hs as (r0 & [= <- <-] & _).
    reflexivity.
Qed.

(** The points of a panel are the rows of the tumour, each with the
    displacement of its own coordinates. *)
Lemma tumour_panel_points (ordered : list (series_key * structure_row))
    (tumour : string) :
  panel_points (tumour_panel ordered tumour)
  = map (fun a => (fst a, displacement (snd a)))
        (filter (fun a => String.eqb (name (snd a)) tumour) ordered).
Proof.
  unfold tumour_panel.
  destruct (filter _ ordered); reflexivity.
Qed.

Lemma panel_keys (ordered : list (series_key * structure_row)) (tumour : string) :
  map fst (panel_points (tumour_panel ordered tumour))
  = map fst (filter (fun a => String.eqb (name (snd a)) tumour) ordered).
Proof.
  rewrite tumour_panel_points, map_map; reflexivity.
Qed.

(** *** The plotting loop *)

Lemma for_each_ok {A B : Type} (body : A -> result B) (f : A -> B) (items : list A) :
  (forall a, In a items -> body a = Ok (f a)) ->
  for_each body items = Ok (map f items).
Proof.
  induction items as [|a items IH]; simpl; intros Hall; [reflexivity|].
  rewrite (Hall a) by now left.
  simpl; rewrite IH by (intros b Hb; apply Hall; now right).
  reflexivity.
Qed.

Lemma for_each_ok_inv {A B : Type} (body : A -> result B) (items : list A)
    (out : list B) :
  for_each body items = Ok out -> Forall2 (fun a b => body a = Ok b) items out.
Proof.
  revert out; induction items as [|a items IH]; simpl; intros out Hrun.
  - injection Hrun as <-; constructor.
  - destruct (body a) as [b|e] eqn:Eb; simpl in Hrun; [|discriminate].
    destruct (for_each body items) as [rest|e]; simpl in Hrun; [|discriminate].
    injection Hrun as <-; constructor; [exact Eb|now apply IH].
Qed.

Lemma for_each_raise_inv {A B : Type} (body : A -> result B) (items : list A)
    (e : exn) :
  for_each body items = Raise e -> exists a, In a items /\ body a = Raise e.
Proof.
  induction items as [|a items IH]; simpl; intros Hrun; [discriminate|].
  destruct (body a) as [b|e'] eqn:Eb; simpl in Hrun.
  - destruct (for_each body items) as [rest|e']; simpl in Hrun; [discriminate|].
    injection Hrun as ->.
    destruct (IH eq_refl) as (a' & Ha' & Hr); exists a'; split; [now right|exact Hr].
  - injection Hrun as ->; exists a; split; [now left|exact Eb].
Qed.

Lemma plot_tumour_accepted (ordered : list (series_key * structure_row))
    (tumour : string) :
  plot_accepts (map fst (panel_points (tumour_panel ordered tumour))) = true ->
  plot_tumour ordered tumour = Ok (tumour_panel ordered tumour).
Proof. intros Hacc; unfold plot_tumour; now rewrite Hacc. Qed.

Lemma plot_tumour_inv (ordered : list (series_key * structure_row))
    (tumour : string) (p : panel) :
  plot_tumour ordered tumour = Ok p ->
  p = tumour_panel ordered tumour
  /\ plot_accepts (map fst (panel_points (tumour_panel ordered tumour))) = true.
Proof.
  unfold plot_tumour.
  destruct (plot_accepts _); [|discriminate].
  intros [= <-]; auto.
Qed.

Lemma plot_tumour_raises (ordered : list (series_key * structure_row))
    (tumour : string) (e : exn) :
  plot_tumour ordered tumour = Raise e -> exists msg, e = TypeError msg.
Proof.
  unfold plot_tumour.
  destruct (plot_accepts _); [discriminate|].
  intros [= <-]; eexists; reflexivity.
Qed.

Lemma plot_loop_accepted (ordered : list (series_key * structure_row)) :
  (forall tumour, In tumour tumour_names ->
     plot_accepts (map fst (panel_points (tumour_panel ordered tumour))) = true) ->
  for_each (plot_tumour ordered) tumour_names
  = Ok (map (tumour_panel ordered) tumour_names).
Proof.
  intros Hacc; apply for_each_ok.
  intros tumour Hin; apply plot_tumour_accepted, Hacc, Hin.
Qed.

Lemma plot_loop_inv (ordered : list (series_key * structure_row))
    (panels : list panel) :
  for_each (plot_tumour ordered) tumour_names = Ok panels ->
  panels = map (tumour_panel ordered) tumour_names
  /\ (forall tumour, In tumour tumour_names ->
        plot_accepts (map fst (panel_points (tumour_panel ordered tumour))) = true).
Proof.
  intros Hrun; apply for_each_ok_inv in Hrun.
  induction Hrun as [|tumour p names ps Hp Hrest IH]; simpl.
  - split; [reflexivity|intros tumour []].
  - apply plot_tumour_inv in Hp as (-> & Hacc).
    destruct IH as (-> & Hall); split; [reflexivity|].
    intros t [<-|Ht]; [exact Hacc|now apply Hall].
Qed.

(** Keys that are all numbers, or all category labels, are accepted. *)
Lemma plot_accepts_numbers (keys : list series_key) :
  (forall k, In k keys -> exists v, k = Number v) -> plot_accepts keys = true.
Proof.
  intros Hall; unfold plot_accepts.
  assert (E : existsb is_phase_label keys = false).
  { apply not_true_is_false; intros Hex.
    apply existsb_exists in Hex as (k & Hk & Hl).
    destruct (Hall k Hk) as (v & ->); discriminate. }
  now rewrite E.
Qed.

Lemma plot_accepts_labels (keys : list series_key) :
  (forall k, In k keys -> exists l, k = Phase (Some l)) -> plot_accepts keys = true.
Proof.
  intros Hall; unfold plot_accepts.
  assert (E : existsb is_missing keys = false).
  { apply not_true_is_false; intros Hex.
    apply existsb_exists in Hex as (k & Hk & Hl).
    destruct (Hall k Hk) as (l & ->); discriminate. }
  rewrite E; apply negb_true_iff, andb_false_r.
Qed.

(** The ordering never fails; the script returns the prepared subplots
    when [plot] accepts the keys of each of them, and the only error that
    leaves it is the [TypeError] of [plot]. *)
Lemma tumour_displacement_prepared (df : list structure_row) :
  exists ordered,
    order_rows py_float (drop_average df) = Ok ordered
    /\ Permutation (map snd ordered) (drop_average df)
    /\ ((forall tumour, In tumour tumour_names ->
           plot_accepts (map fst (panel_points (tumour_panel ordered tumour))) = true) ->
        tumour_displacement py_float df = Ok (map (tumour_panel ordered) tumour_names))
    /\ (forall panels, tumour_displacement py_float df = Ok panels ->
          panels = map (tumour_panel ordered) tumour_names)
    /\ (forall e, tumour_displacement py_float df = Raise e ->
          exists msg, e = TypeError msg).
Proof.
  destruct (order_rows_total (drop_average df)) as (ordered & Ho & HP).
  exists ordered; split; [exact Ho|split; [exact HP|]].
  unfold tumour_displacement; rewrite Ho; cbn [bind].
  split; [apply plot_loop_accepted|split].
  - intros panels Hrun; now apply plot_loop_inv in Hrun.
  - intros e Hrun.
    apply for_each_raise_inv in Hrun as (tumour & _ & Hr).
    exact (plot_tumour_raises _ _ _ Hr).
Qed.

End TumourDisplacementProperties.




(** C9.  The phase branch of [tumour_displacement.py] matches the labels
    as they are written and drops nothing.  Of the three rows of
    [unnormalized_rows], " 0IN" (which trims and lower-cases to the
    canonical "0in") and "warmup" (no phase) both stay in the table with a
    missing key, after the one recognised row; [plot] then refuses the keys
    of the subplot and the script ends in a [TypeError].
    [process_structure_csv] on the same rows keeps "0in" and "25in" and
    drops "warmup". *)
Theorem tumour_displacement_keeps_unrecognized_labels :
  normalize " 0IN" = "0in"
  /\ In (normalize " 0IN") PHASE_ORDER
  /\ ~ In (normalize "warmup") PHASE_ORDER
  /\ order_rows Py.float (drop_average unnormalized_rows)
     = Ok [ (Phase (Some "25in"), mk_structure_row "25in" "lower_tumour" 0 0 1);
            (Phase None, mk_structure_row " 0IN" "lower_tumour" 3 4 0);
            (Phase None, mk_structure_row "warmup" "lower_tumour" 1 2 2) ]
  /\ (exists ordered,
        order_rows Py.float (drop_average unnormalized_rows) = Ok ordered
        /\ map fst (panel_points (tumour_panel ordered "lower_tumour"))
           = [Phase (Some "25in"); Phase None; Phase None]
        /\ plot_accepts [Phase (Some "25in"); Phase None; Phase None] = false)
  /\ (exists msg,
        tumour_displacement Py.float unnormalized_rows = Raise (TypeError msg))
  /\ phase_table unnormalized_rows "lower_tumour"
     = [ mk_structure_row "0in" "lower_tumour" 3 4 0;
         mk_structure_row "25in" "lower_tumour" 0 0 1 ].
Proof.
  assert (Ho : order_rows Py.float (drop_average unnormalized_rows)
     = Ok [ (Phase (Some "25in"), mk_structure_row "25in" "lower_tumour" 0 0 1);
            (Phase None, mk_structure_row " 0IN" "lower_tumour" 3 4 0);
            (Phase None, mk_structure_row "warmup" "lower_tumour" 1 2 2) ])
    by (vm_compute; reflexivity).
  split; [reflexivity|].
  split; [simpl; auto|].
  split; [intros Hin; simpl in Hin; repeat (destruct Hin as [Hin|Hin]; try discriminate); exact Hin|].
  split; [exact Ho|].
  split; [|split; [|reflexivity]].
  - eexists; split; [exact Ho|split; [|reflexivity]].
    rewrite panel_keys; reflexivity.
  - eexists; unfold tumour_displacement; rewrite Ho; cbn [bind].
    unfold tumour_names; cbn [for_each]; unfold plot_tumour at 1.
    rewrite panel_keys; reflexivity.
Qed.

(** ** Displacement in three dimensions *)

Lemma displacement_norm (r : structure_row) :
  displacement r = euclidean_norm (Q2R (x r)) (Q2R (y r)) (Q2R (z r)).
Proof.
  unfold displacement, euclidean_norm, sum_of_squares; f_equal.
  rewrite !Q2R_plus.
  assert (Hsq : forall q : Q, Q2R (q ^ 2) = (Q2R q * Q2R q)%R).
  { intros q; rewrite <- Q2R_mult; apply Qeq_eqR; simpl; reflexivity. }
  now rewrite !Hsq.
Qed.

Lemma displacement_nonneg (r : structure_row) : (0 <= displacement r)%R.
Proof. apply sqrt_pos. Qed.

Lemma displacement_first_inhale_row : displacement first_inhale_row = 5%R.
Proof.
  unfold displacement.
  replace (Q2R (sum_of_squares first_inhale_row)) with (5 * 5)%R.
  - apply sqrt_square; lra.
  - unfold sum_of_squares, first_inhale_row; simpl x; simpl y; simpl z.
    unfold Q2R; simpl; lra.
Qed.

(** C8.  The value the script computes for a row is the Euclidean norm of
    that row's own (x, y, z): a non-negative magnitude in which no other
    row takes part.  The points prepared for a subplot are the rows of its
    tumour (those labelled with an average apart), each with that value;
    the subplots the script returns are the prepared ones, and it returns
    them whenever [plot] accepts their keys.  A lone row at phase "0in" and
    position (3, 4, 0) is plotted at 5, not at 0. *)
Theorem displacement_3d_is_position_norm
    (py_float : string -> option Q) (df : list structure_row) :
  exists ordered,
    order_rows py_float (drop_average df) = Ok ordered
    /\ Permutation (map snd ordered) (drop_average df)
    /\ (forall tumour,
          panel_points (tumour_panel ordered tumour)
          = map (fun a => (fst a,
                           euclidean_norm (Q2R (x (snd a))) (Q2R (y (snd a)))
                                          (Q2R (z (snd a)))))
                (filter (fun a => String.eqb (name (snd a)) tumour) ordered))
    /\ (forall tumour k d,
          In (k, d) (panel_points (tumour_panel ordered tumour)) ->
          exists r, In r df /\ name r = tumour /\ (0 <= d)%R
                    /\ d = euclidean_norm (Q2R (x r)) (Q2R (y r)) (Q2R (z r)))
    /\ ((forall tumour, In tumour tumour_names ->
           plot_accepts (map fst (panel_points (tumour_panel ordered tumour))) = true) ->
        tumour_displacement py_float df = Ok (map (tumour_panel ordered) tumour_names))
    /\ (forall panels, tumour_displacement py_float df = Ok panels ->
          panels = map (tumour_panel ordered) tumour_names)
    /\ tumour_displacement Py.float [first_inhale_row]
       = Ok [Plot [(Phase (Some "0in"), 5%R)]; NoData; NoData]
    /\ displacement first_inhale_row = 5%R.
Proof.
  destruct (tumour_displacement_prepared py_float df)
    as (ordered & Ho & HP & Hacc & Hok & _).
  exists ordered.
  assert (Hpts : forall tumour,
            panel_points (tumour_panel ordered tumour)
            = map (fun a => (fst a,
                             euclidean_norm (Q2R (x (snd a))) (Q2R (y (snd a)))
                                            (Q2R (z (snd a)))))
                  (filter (fun a => String.eqb (name (snd a)) tumour) ordered)).
  { intros tumour; rewrite tumour_panel_points.
    apply map_ext; intros a; now rewrite displacement_norm. }
  split; [exact Ho|split; [exact HP|split; [exact Hpts|split]]].
  - intros tumour k d Hin.
    rewrite Hpts in Hin.
    apply in_map_iff in Hin as ([k' r] & [= <- <-] & Hf).
    apply filter_In in Hf as (Hin & Hn); simpl in *.
    apply String.eqb_eq in Hn.
    exists r; repeat split; auto.
    + assert (Hr : In r (drop_average df)).
      { apply (Permutation_in _ HP), in_map_iff; exists (k', r); auto. }
      unfold drop_average in Hr; apply filter_In in Hr; tauto.
    + rewrite <- displacement_norm; apply displacement_nonneg.
  - split; [exact Hacc|split; [exact Hok|split]].
    + assert (Hone : order_rows Py.float (drop_average [first_inhale_row])
                     = Ok [(Phase (Some "0in"), first_inhale_row)])
        by (vm_compute; reflexivity).
      unfold tumour_displacement; rewrite Hone; cbn [bind].
      unfold tumour_names; cbn [for_each]; unfold plot_tumour.
      rewrite !panel_keys.
      change (map fst
                (filter (fun a => String.eqb (name (snd a)) "lower_tumour")
                        [(Phase (Some "0in"), first_inhale_row)]))
        with [Phase (Some "0in")].
      change (map fst
                (filter (fun a => String.eqb (name (snd a)) "middle_tumour")
                        [(Phase (Some "0in"), first_inhale_row)]))
        with (@nil series_key).
      change (map fst
                (filter (fun a => String.eqb (name (snd a)) "upper_tumour")
                        [(Phase (Some "0in"), first_inhale_row)]))
        with (@nil series_key).
      change (plot_accepts [Phase (Some "0in")]) with true.
      change (plot_accepts []) with true.
      cbv iota; simpl bind.
      change (tumour_panel [(Phase (Some "0in"), first_inhale_row)] "lower_tumour")
        with (Plot [(Phase (Some "0in"), displacement first_inhale_row)]).
      change (tumour_panel [(Phase (Some "0in"), first_inhale_row)] "middle_tumour")
        with NoData.
      change (tumour_panel [(Phase (Some "0in"), first_inhale_row)] "upper_tumour")
        with NoData.
      now rewrite displacement_first_inhale_row.
    + apply displacement_first_inhale_row.
Qed.

(** * Further properties *)

(** ** Which shapes [dice_score] accepts *)

Lemma broadcast_rev_comm (r1 r2 : list nat) :
  broadcast_rev r1 r2 = broadcast_rev r2 r1.
Proof.
  revert r2; induction r1 as [|d1 r1 IH]; intros [|d2 r2]; simpl; try reflexivity.
  rewrite (IH r2); destruct (broadcast_rev r2 r1) as [t|]; [|reflexivity].
  rewrite (Nat.eqb_sym d2 d1).
  destruct (Nat.eqb_spec d1 d2) as [->|Hne]; [reflexivity|].
  destruct (Nat.eqb_spec d1 1) as [->|H1], (Nat.eqb_spec d2 1) as [->|H2];
    reflexivity.
Qed.

Lemma broadcast_shapes_comm (s1 s2 : list nat) :
  broadcast_shapes s1 s2 = broadcast_shapes s2 s1.
Proof. unfold broadcast_shapes; now rewrite broadcast_rev_comm. Qed.

Lemma broadcast_rev_none (r1 r2 : list nat) :
  broadcast_rev r1 r2 = None <->
  exists k, (k < List.length r1)%nat /\ (k < List.length r2)%nat
            /\ compatible (nth k r1 0%nat) (nth k r2 0%nat) = false.
Proof.
  revert r2; induction r1 as [|d1 r1 IH]; intros [|d2 r2]; simpl.
  - split; [discriminate|intros (k & Hk & _); lia].
  - split; [discriminate|intros (k & Hk & _); lia].
  - split; [discriminate|intros (k & _ & Hk & _); lia].
  - destruct (broadcast_rev r1 r2) as [t|] eqn:E.
    + assert (Htail : ~ exists k, (k < List.length r1)%nat /\ (k < List.length r2)%nat
                        /\ compatible (nth k r1 0%nat) (nth k r2 0%nat) = false).
      { intros Hk; apply IH in Hk; congruence. }
      unfold compatible.
      destruct (d1 =? d2)%nat eqn:E12; simpl.
      * split; [discriminate|].
        intros ([|k] & H1 & H2 & Hc); simpl in Hc.
        -- rewrite E12 in Hc; discriminate.
        -- exfalso; apply Htail; exists k; repeat split; try lia; exact Hc.
      * destruct (d1 =? 1)%nat eqn:E1; simpl.
        { split; [discriminate|].
          intros ([|k] & H1 & H2 & Hc); simpl in Hc.
          - rewrite E12, E1 in Hc; discriminate.
          - exfalso; apply Htail; exists k; repeat split; try lia; exact Hc. }
        destruct (d2 =? 1)%nat eqn:E2; simpl.
        { split; [discriminate|].
          intros ([|k] & H1 & H2 & Hc); simpl in Hc.
          - rewrite E12, E1, E2 in Hc; discriminate.
          - exfalso; apply Htail; exists k; repeat split; try lia; exact Hc. }
        split; [intros _|reflexivity].
        exists 0%nat; simpl; rewrite E12, E1, E2; repeat split; lia.
    + split; [intros _|reflexivity].
      destruct (proj1 (IH r2) E) as (k & H1 & H2 & Hc).
      exists (S k); simpl; repeat split; try lia; exact Hc.
Qed.

(** X1.  [dice_score] raises, and then a [ValueError], exactly when some
    axis, counted from the last, has two extents that differ with neither
    of them 1; in every other case it returns a score. *)
Theorem dice_score_raises_iff_incompatible {A B : Type} `{Truthy A} `{Truthy B}
    (a : ndarray A) (b : ndarray B) :
  ((exists e, dice_score a b = Raise e) <->
   (exists k, (k < List.length (shape a))%nat /\ (k < List.length (shape b))%nat
              /\ compatible (extent_from_last (shape a) k)
                            (extent_from_last (shape b) k) = false))
  /\ (forall e, dice_score a b = Raise e -> exists msg, e = ValueError msg)
  /\ ((exists q, dice_score a b = Ok q) \/ (exists e, dice_score a b = Raise e)).
Proof.
  assert (Hnone : broadcast_shapes (shape a) (shape b) = None <->
            exists k, (k < List.length (shape a))%nat /\ (k < List.length (shape b))%nat
              /\ compatible (extent_from_last (shape a) k)
                            (extent_from_last (shape b) k) = false).
  { unfold broadcast_shapes, extent_from_last.
    rewrite <- (length_rev (shape a)), <- (length_rev (shape b)).
    rewrite <- broadcast_rev_none.
    destruct (broadcast_rev (rev (shape a)) (rev (shape b))); simpl;
      split; congruence. }
  destruct (broadcast_shapes (shape a) (shape b)) as [s|] eqn:E.
  - destruct (dice_score_broadcastable a b s E) as (q & Hq).
    rewrite Hq; split; [|split].
    + split; [intros (e & He); discriminate|].
      intros Hk; apply Hnone in Hk; discriminate.
    + intros e He; discriminate.
    + left; now exists q.
  - destruct (dice_score_not_broadcastable a b E) as (msg & Hmsg).
    rewrite Hmsg; split; [|split].
    + split; [intros _; now apply Hnone|intros _; eexists; reflexivity].
    + intros e [= <-]; now exists msg.
    + right; eexists; reflexivity.
Qed.
(** ** Algebra of the score *)

(** X2.  The score does not depend on the order of its two arguments,
    whenever it is a score at all (broadcast shapes included). *)
Theorem dice_score_symmetric {A B : Type} `{Truthy A} `{Truthy B}
    (a : ndarray A) (b : ndarray B) (s : list nat) :
  broadcast_shapes (shape a) (shape b) = Some s ->
  dice_score a b = dice_score b a.
Proof.
  intros Hs; unfold dice_score, logical_and; simpl shape.
  rewrite (broadcast_shapes_comm (shape b) (shape a)), Hs; unfold bind, sum; simpl data.
  rewrite (Nat.add_comm (count_true (map truthy (data b)))).
  replace (map (fun idx => read false (astype_bool b) idx && read false (astype_bool a) idx)
               (indices s))
    with (map (fun idx => read false (astype_bool a) idx && read false (astype_bool b) idx)
              (indices s))
    by (apply map_ext; intros idx; apply andb_comm).
  reflexivity.
Qed.

Lemma dice_score_symmetric_witness :
  dice_score (gt ground_truth_2x2x2 (1 # 2)) (gt prediction_2x2x1 (1 # 2))
  = dice_score (gt prediction_2x2x1 (1 # 2)) (gt ground_truth_2x2x2 (1 # 2)).
Proof.
  apply (dice_score_symmetric (gt ground_truth_2x2x2 (1 # 2))
           (gt prediction_2x2x1 (1 # 2)) [2; 2; 2]%nat).
  reflexivity.
Defined.

Lemma inject_nat_pos (t : nat) : (0 < t)%nat -> 0 < inject_Z (Z.of_nat t).
Proof. intros Ht; unfold Qlt, inject_Z; simpl; lia. Qed.

Lemma dice_ratio_one (i t : nat) :
  (0 < t)%nat -> (dice_ratio i t == 1 <-> (2 * i = t)%nat).
Proof.
  intros Ht; unfold dice_ratio.
  pose proof (inject_nat_pos t Ht) as Hpos.
  assert (Hnz : ~ inject_Z (Z.of_nat t) == 0).
  { intros E; rewrite E in Hpos; exact (Qlt_irrefl 0 Hpos). }
  split.
  - intros E.
    assert (E' : 2 * inject_Z (Z.of_nat i) == inject_Z (Z.of_nat t)).
    { rewrite <- (Qmult_div_r (2 * inject_Z (Z.of_nat i)) (inject_Z (Z.of_nat t)) Hnz).
      rewrite E; apply Qmult_1_r. }
    unfold Qeq, Qmult, inject_Z in E'; cbn [Qnum Qden] in E'; lia.
  - intros <-.
    assert (E' : 2 * inject_Z (Z.of_nat i) == inject_Z (Z.of_nat (2 * i))).
    { unfold Qeq, Qmult, inject_Z; cbn [Qnum Qden]; lia. }
    rewrite E'; unfold Qdiv; apply Qmult_inv_r; exact Hnz.
Qed.

Lemma dice_ratio_zero (i t : nat) :
  (0 < t)%nat -> (dice_ratio i t == 0 <-> i = 0%nat).
Proof.
  intros Ht; unfold dice_ratio.
  pose proof (inject_nat_pos t Ht) as Hpos.
  assert (Hnz : ~ inject_Z (Z.of_nat t) == 0).
  { intros E; rewrite E in Hpos; exact (Qlt_irrefl 0 Hpos). }
  split.
  - intros E.
    assert (E' : 2 * inject_Z (Z.of_nat i) == 0).
    { rewrite <- (Qmult_div_r (2 * inject_Z (Z.of_nat i)) (inject_Z (Z.of_nat t)) Hnz).
      rewrite E; apply Qmult_0_r. }
    unfold Qeq, Qmult, inject_Z in E'; cbn [Qnum Qden] in E'; lia.
  - intros ->; simpl; unfold Qdiv; rewrite Qmult_0_l; reflexivity.
Qed.

(** Two boolean lists of one length whose common true positions are as
    many as half the true positions of both are the same list. *)
Lemma full_overlap_equal (l1 l2 : list bool) :
  List.length l1 = List.length l2 ->
  (2 * count_true (map (fun p => fst p && snd p) (combine l1 l2))
   = count_true l1 + count_true l2)%nat ->
  l1 = l2.
Proof.
  revert l2; induction l1 as [|u l1 IH]; intros [|v l2] Hlen Hcnt;
    try discriminate; [reflexivity|].
  injection Hlen as Hlen.
  pose proof (count_true_and_l l1 l2) as Hl.
  pose proof (count_true_and_r l1 l2) as Hr.
  unfold count_true in *; simpl in Hcnt.
  destruct u, v; simpl in Hcnt; try lia; f_equal; apply IH; auto; lia.
Qed.

Lemma count_true_and_diag (l : list bool) :
  count_true (map (fun p => fst p && snd p) (combine l l)) = count_true l.
Proof.
  unfold count_true; induction l as [|u l IH]; simpl; [reflexivity|].
  destruct u; simpl; now rewrite IH.
Qed.

(** X3.  On boolean masks of one shape the score is 1 exactly when the
    two masks are the same array; in particular every mask, empty or not,
    scores 1 against itself. *)
Theorem dice_score_one_iff_identical (a b : ndarray bool) :
  wf a -> wf b -> shape a = shape b ->
  (same_score (dice_score a b) (Ok 1) <-> a = b)
  /\ same_score (dice_score a a) (Ok 1).
Proof.
  intros Ha Hb Hs.
  assert (Hself : forall c : ndarray bool, wf c -> same_score (dice_score c c) (Ok 1)).
  { intros c Hc.
    rewrite (dice_score_same_shape c c Hc Hc eq_refl), !astype_bool_mask; cbv zeta.
    destruct (Nat.eqb_spec (sum c + sum c) 0) as [E|NE]; simpl; [reflexivity|].
    apply dice_ratio_one; [lia|].
    unfold both_true, sum; rewrite <- count_true_map_filter, count_true_and_diag; lia. }
  split; [|now apply Hself].
  split; [|intros <-; now apply Hself].
  rewrite (dice_score_same_shape a b Ha Hb Hs), !astype_bool_mask; cbv zeta.
  intros Hone.
  assert (Hcnt : (2 * both_true a b = sum a + sum b)%nat).
  { destruct (Nat.eqb_spec (sum a + sum b) 0) as [E|NE]; simpl in Hone.
    - pose proof (both_true_le a b); lia.
    - apply dice_ratio_one in Hone; [exact Hone|lia]. }
  destruct a as [sa da], b as [sb db]; simpl in *; subst sb.
  f_equal; apply full_overlap_equal.
  - unfold wf in *; simpl in *; congruence.
  - unfold both_true, sum in Hcnt; simpl in Hcnt.
    now rewrite count_true_map_filter.
Qed.

Lemma dice_score_one_iff_identical_witness :
  (same_score (dice_score mask_2x2_a mask_2x2_b) (Ok 1) <-> mask_2x2_a = mask_2x2_b)
  /\ same_score (dice_score mask_2x2_a mask_2x2_a) (Ok 1).
Proof.
  apply (dice_score_one_iff_identical mask_2x2_a mask_2x2_b); reflexivity.
Defined.

(** X4.  On boolean masks of one shape the score is 0 exactly when some
    voxel is true and none is true in both masks. *)
Theorem dice_score_zero_iff_disjoint (a b : ndarray bool) :
  wf a -> wf b -> shape a = shape b ->
  (same_score (dice_score a b) (Ok 0)
   <-> both_true a b = 0%nat /\ (sum a + sum b)%nat <> 0%nat).
Proof.
  intros Ha Hb Hs.
  rewrite (dice_score_same_shape a b Ha Hb Hs), !astype_bool_mask; cbv zeta.
  destruct (Nat.eqb_spec (sum a + sum b) 0) as [E|NE]; simpl.
  - split; [intros Habs; discriminate Habs|intros (_ & Hne); contradiction].
  - rewrite dice_ratio_zero by lia; tauto.
Qed.

Lemma dice_score_zero_iff_disjoint_witness :
  same_score (dice_score mask_2x2_a mask_2x2_b) (Ok 0)
  <-> both_true mask_2x2_a mask_2x2_b = 0%nat
      /\ (sum mask_2x2_a + sum mask_2x2_b)%nat <> 0%nat.
Proof.
  apply (dice_score_zero_iff_disjoint mask_2x2_a mask_2x2_b); reflexivity.
Defined.

(** ** Rounding *)

Lemma pow10_pos (n : nat) : 0 < inject_Z (10 ^ Z.of_nat n).
Proof.
  unfold Qlt, inject_Z; simpl.
  rewrite Z.mul_1_r; apply Z.pow_pos_nonneg; lia.
Qed.

(** The integer [Py.round] picks, and how far it is from the scaled value. *)
Lemma round_numerator (q : Q) (ndigits : nat) :
  exists m : Z,
    Py.round q ndigits = inject_Z m / inject_Z (10 ^ Z.of_nat ndigits)
    /\ (Qfloor (q * inject_Z (10 ^ Z.of_nat ndigits)) <= m)%Z
    /\ - (1 # 2) <= inject_Z m - q * inject_Z (10 ^ Z.of_nat ndigits) <= 1 # 2.
Proof.
  unfold Py.round.
  set (scale := inject_Z (10 ^ Z.of_nat ndigits)).
  set (v := q * scale).
  pose proof (Qfloor_le v) as Hlo.
  pose proof (Qlt_floor v) as Hhi.
  rewrite inject_Z_plus in Hhi; change (inject_Z 1) with 1 in Hhi.
  destruct (Qcompare_spec (v - inject_Z (Qfloor v)) (1 # 2)) as [E|L|G].
  - destruct (Z.even (Qfloor v)).
    + exists (Qfloor v); split; [reflexivity|split; [lia|]].
      split; Lqa.lra.
    + exists (Qfloor v + 1)%Z; split; [reflexivity|split; [lia|]].
      rewrite inject_Z_plus; change (inject_Z 1) with 1.
      split; Lqa.lra.
  - exists (Qfloor v); split; [reflexivity|split; [lia|]].
    split; Lqa.lra.
  - exists (Qfloor v + 1)%Z; split; [reflexivity|split; [lia|]].
    rewrite inject_Z_plus; change (inject_Z 1) with 1.
    split; Lqa.lra.
Qed.

Lemma round_error (q : Q) (ndigits : nat) :
  Qabs.Qabs (Py.round q ndigits - q) <= (1 # 2) / inject_Z (10 ^ Z.of_nat ndigits).
Proof.
  pose proof (pow10_pos ndigits) as Hpos.
  destruct (round_numerator q ndigits) as (m & -> & Hfloor & Hlo & Hhi).
  set (scale := inject_Z (10 ^ Z.of_nat ndigits)) in *.
  assert (Hnz : ~ scale == 0).
  { intros E; rewrite E in Hpos; exact (Qlt_irrefl 0 Hpos). }
  assert (Hinv : 0 <= / scale) by (apply Qinv_le_0_compat, Qlt_le_weak, Hpos).
  assert (Hdiff : inject_Z m / scale - q == (inject_Z m - q * scale) * / scale).
  { field; exact Hnz. }
  apply Qabs.Qabs_Qle_condition; rewrite Hdiff; unfold Qdiv; split.
  - setoid_replace (- ((1 # 2) * / scale)) with ((- (1 # 2)) * / scale) by ring.
    now apply Qmult_le_compat_r.
  - now apply Qmult_le_compat_r.
Qed.

Lemma round_unit_interval (q : Q) (ndigits : nat) :
  0 <= q <= 1 -> 0 <= Py.round q ndigits <= 1.
Proof.
  pose proof (pow10_pos ndigits) as Hpos.
  destruct (round_numerator q ndigits) as (m & -> & Hfloor & Hlo & Hhi).
  set (scale := inject_Z (10 ^ Z.of_nat ndigits)) in *.
  intros [H0 H1]; split.
  - apply Qle_shift_div_l; [exact Hpos|].
    rewrite Qmult_0_l.
    assert (Hv : 0 <= q * scale).
    { apply Qmult_le_0_compat; [exact H0|apply Qlt_le_weak, Hpos]. }
    apply Qfloor_resp_le in Hv; change (Qfloor 0) with 0%Z in Hv.
    change 0 with (inject_Z 0); rewrite <- Zle_Qle; lia.
  - apply Qle_shift_div_r; [exact Hpos|].
    rewrite Qmult_1_l.
    assert (Hv : q * scale <= scale).
    { setoid_replace scale with (1 * scale) at 2 by ring.
      apply Qmult_le_compat_r; [exact H1|apply Qlt_le_weak, Hpos]. }
    assert (Hm : inject_Z m < scale + 1) by Lqa.lra.
    unfold scale in *.
    change 1 with (inject_Z 1) in Hm; rewrite <- inject_Z_plus, <- Zlt_Qlt in Hm.
    rewrite <- Zle_Qle; lia.
Qed.

(** ** The batch of [chat_dice.py] *)

Lemma gt_wf (v : ndarray Q) (c : Q) : wf v -> wf (gt v c).
Proof. unfold wf; simpl; now rewrite length_map. Qed.

Lemma shape_eqb_true (s1 s2 : list nat) : shape_eqb s1 s2 = true -> s1 = s2.
Proof.
  unfold shape_eqb; destruct (list_eq_dec Nat.eq_dec s1 s2); [auto|discriminate].
Qed.

Lemma dice_score_unit_interval (a b : ndarray bool) :
  wf a -> wf b -> shape a = shape b ->
  exists q, dice_score a b = Ok q /\ 0 <= q <= 1.
Proof.
  intros Ha Hb Hs.
  rewrite (dice_score_same_shape a b Ha Hb Hs), !astype_bool_mask; cbv zeta.
  destruct (Nat.eqb_spec (sum a + sum b) 0) as [E|NE].
  - exists 1; split; [reflexivity|split; discriminate].
  - eexists; split; [reflexivity|].
    apply dice_ratio_bounds; [lia|apply both_true_le].
Qed.

Section ChatDiceBatch.

Variable os_path_join : string -> string -> string.
Variable os_path_exists : string -> bool.
Variable load_nifti : string -> result (ndarray Q).

(** Every file that exists decodes, to a volume with as many voxels as its
    shape announces. *)
Hypothesis load_nifti_wf :
  forall path, os_path_exists path = true ->
  exists vol, load_nifti path = Ok vol /\ wf vol.

Lemma evaluate_tumor_row (base_dir dir1 series1 dir2 series2 tumour : string) :
  exists row,
    evaluate_tumor os_path_join os_path_exists load_nifti
      base_dir dir1 series1 dir2 series2 tumour
    = Ok row
    /\ tumor row = tumour /\ chat_row_sound row.
Proof.
  unfold evaluate_tumor.
  set (path1 := os_path_join (os_path_join base_dir dir1) _).
  set (path2 := os_path_join (os_path_join base_dir dir2) _).
  destruct (os_path_exists path1) eqn:E1; simpl negb.
  - destruct (os_path_exists path2) eqn:E2; simpl negb; simpl orb; cbv iota.
    + destruct (load_nifti_wf path1 E1) as (vol1 & -> & Hw1).
      destruct (load_nifti_wf path2 E2) as (vol2 & -> & Hw2).
      cbn [bind]; simpl shape.
      destruct (shape_eqb (shape vol1) (shape vol2)) eqn:Es;
        simpl negb; cbv iota.
      * apply shape_eqb_true in Es.
        destruct (dice_score_unit_interval (gt vol1 (1 # 2)) (gt vol2 (1 # 2)))
          as (q & -> & Hq); eauto using gt_wf.
        simpl; eexists; split; [reflexivity|split; [reflexivity|]].
        unfold chat_row_sound; simpl; split; [|reflexivity].
        now apply round_unit_interval.
      * eexists; split; [reflexivity|split; [reflexivity|]].
        unfold chat_row_sound; simpl; right; reflexivity.
    + eexists; split; [reflexivity|split; [reflexivity|]].
      unfold chat_row_sound; simpl; left; reflexivity.
  - simpl orb; cbv iota.
    eexists; split; [reflexivity|split; [reflexivity|]].
    unfold chat_row_sound; simpl; left; reflexivity.
Qed.

Lemma evaluate_tumor_rows (base_dir dir1 series1 dir2 series2 : string)
    (tumor_list : list string) :
  exists rows,
    for_each (evaluate_tumor os_path_join os_path_exists load_nifti
                base_dir dir1 series1 dir2 series2) tumor_list = Ok rows
    /\ map tumor rows = tumor_list
    /\ Forall chat_row_sound rows.
Proof.
  induction tumor_list as [|t rest IH]; simpl.
  - exists []; repeat split; constructor.
  - destruct (evaluate_tumor_row base_dir dir1 series1 dir2 series2 t)
      as (row & -> & Ht & Hrow).
    destruct IH as (rows & -> & Hts & Hrows); simpl.
    exists (row :: rows); simpl; repeat split; [congruence|now constructor].
Qed.

End ChatDiceBatch.

(** X5.  When both files exist and hold well-formed volumes of one shape,
    the row of [enhanced_dice_evaluation] for that tumour carries the note
    "OK" and a score that is within 0.00005 of the exact score of the two
    thresholded volumes. *)
Theorem evaluate_tumor_score_accuracy
    (os_path_join : string -> string -> string)
    (os_path_exists : string -> bool)
    (load_nifti : string -> result (ndarray Q))
    (base_dir dir1 series1 dir2 series2 tumour : string) (vol1 vol2 : ndarray Q) :
  let path1 := os_path_join (os_path_join base_dir dir1)
                            (series1 ++ "_" ++ tumour ++ ".nii.gz") in
  let path2 := os_path_join (os_path_join base_dir dir2)
                            (series2 ++ "_" ++ tumour ++ ".nii.gz") in
  os_path_exists path1 = true ->
  os_path_exists path2 = true ->
  load_nifti path1 = Ok vol1 ->
  load_nifti path2 = Ok vol2 ->
  wf vol1 -> wf vol2 -> shape vol1 = shape vol2 ->
  exists exact reported,
    dice_score (gt vol1 (1 # 2)) (gt vol2 (1 # 2)) = Ok exact
    /\ evaluate_tumor os_path_join os_path_exists load_nifti
         base_dir dir1 series1 dir2 series2 tumour
       = Ok (mk_chat_row tumour path1 path2 (ScoreValue reported) "OK")
    /\ Qabs.Qabs (reported - exact) <= 1 # 20000.
Proof.
  intros path1 path2 E1 E2 H1 H2 Hw1 Hw2 Hs.
  destruct (dice_score_unit_interval (gt vol1 (1 # 2)) (gt vol2 (1 # 2)))
    as (q & Hq & _); auto using gt_wf.
  exists q, (Py.round q 4); split; [exact Hq|split].
  - unfold evaluate_tumor; fold path1; fold path2.
    rewrite E1, E2, H1, H2; simpl negb; simpl orb; cbv iota; cbn [bind].
    simpl shape; rewrite Hs.
    unfold shape_eqb; destruct (list_eq_dec Nat.eq_dec (shape vol2) (shape vol2));
      [|contradiction].
    simpl negb; cbv iota; rewrite Hq; reflexivity.
  - apply (round_error q 4).
Qed.

Lemma evaluate_tumor_score_accuracy_witness :
  exists exact reported,
    dice_score (gt ground_truth_2x2x2 (1 # 2)) (gt ground_truth_2x2x2 (1 # 2)) = Ok exact
    /\ evaluate_tumor posix_join (fun _ => true) (fun _ => Ok ground_truth_2x2x2)
         "base" "A" "30" "B" "31" "middle_tumour"
       = Ok (mk_chat_row "middle_tumour"
               (posix_join (posix_join "base" "A") "30_middle_tumour.nii.gz")
               (posix_join (posix_join "base" "B") "31_middle_tumour.nii.gz")
               (ScoreValue reported) "OK")
    /\ Qabs.Qabs (reported - exact) <= 1 # 20000.
Proof.
  apply (evaluate_tumor_score_accuracy posix_join (fun _ => true)
           (fun _ => Ok ground_truth_2x2x2)
           "base" "A" "30" "B" "31" "middle_tumour"
           ground_truth_2x2x2 ground_truth_2x2x2); reflexivity.
Defined.

(** X6.  When every file that exists decodes to a well-formed volume, the
    loop of [enhanced_dice_evaluation] builds one row per tumour of the
    list, in the order of the list, each holding either a score between 0
    and 1 with the note "OK", or no score with the note "Missing file(s)"
    or a "Shape mismatch" note.  The call then writes these rows to the
    summary file: it returns them when the write succeeds and ends in the
    error of the write otherwise. *)
Theorem enhanced_dice_evaluation_rows
    (os_path_join : string -> string -> string)
    (os_path_exists : string -> bool)
    (load_nifti : string -> result (ndarray Q))
    (to_csv : string -> list chat_row -> result unit)
    (base_dir modality1 series_id1 modality2 series_id2 : string)
    (tumor_list : list string) (patient_id : string) :
  (forall path, os_path_exists path = true ->
     exists vol, load_nifti path = Ok vol /\ wf vol) ->
  let output_path :=
    summary_path os_path_join base_dir modality1 series_id1 modality2 series_id2
      patient_id in
  let run :=
    enhanced_dice_evaluation os_path_join os_path_exists load_nifti to_csv
      base_dir modality1 series_id1 modality2 series_id2 tumor_list patient_id in
  exists rows,
    map tumor rows = tumor_list
    /\ Forall chat_row_sound rows
    /\ (forall done, to_csv output_path rows = Ok done -> run = Ok rows)
    /\ (forall e, to_csv output_path rows = Raise e -> run = Raise e)
    /\ (forall out, run = Ok out -> out = rows).
Proof.
  intros Hwf output_path run.
  destruct (evaluate_tumor_rows os_path_join os_path_exists load_nifti Hwf
              base_dir (modality1 ++ "_pat" ++ patient_id ++ "_segmentations")
              series_id1 (modality2 ++ "_pat" ++ patient_id ++ "_segmentations")
              series_id2 tumor_list) as (rows & Hrows & Hts & Hsound).
  exists rows; split; [exact Hts|split; [exact Hsound|]].
  unfold run, enhanced_dice_evaluation; rewrite Hrows; cbn [bind].
  fold output_path.
  split; [|split].
  - intros done ->; reflexivity.
  - intros e ->; reflexivity.
  - intros out; destruct (to_csv output_path rows); simpl; congruence.
Qed.

Lemma enhanced_dice_evaluation_rows_witness :
  exists rows,
    map tumor rows = ["middle_tumour"; "upper_tumour"]
    /\ Forall chat_row_sound rows
    /\ (forall done,
          writable (summary_path posix_join "base" "4DCT" "30" "HS" "31" "11") rows
          = Ok done ->
          enhanced_dice_evaluation posix_join two_volumes_exist two_volumes_load
            writable "base" "4DCT" "30" "HS" "31"
            ["middle_tumour"; "upper_tumour"] "11" = Ok rows)
    /\ (forall e,
          writable (summary_path posix_join "base" "4DCT" "30" "HS" "31" "11") rows
          = Raise e ->
          enhanced_dice_evaluation posix_join two_volumes_exist two_volumes_load
            writable "base" "4DCT" "30" "HS" "31"
            ["middle_tumour"; "upper_tumour"] "11" = Raise e)
    /\ (forall out,
          enhanced_dice_evaluation posix_join two_volumes_exist two_volumes_load
            writable "base" "4DCT" "30" "HS" "31"
            ["middle_tumour"; "upper_tumour"] "11" = Ok out ->
          out = rows).
Proof.
  apply (enhanced_dice_evaluation_rows posix_join two_volumes_exist
           two_volumes_load writable).
  intros path; unfold two_volumes_exist, two_volumes_load, two_volumes.
  destruct (String.eqb path _); [intros _; eexists; split; reflexivity|].
  destruct (String.eqb path _); [intros _; eexists; split; reflexivity|discriminate].
Defined.

(** ** The loop of [dice_score_folder.py] *)

Lemma compare_file_filename (volume_df : list volume_row) (gt_mask : ndarray bool)
    (file : string) (loaded : result (ndarray Q)) (row : folder_row) :
  compare_file volume_df gt_mask file loaded = Ok row -> filename row = file.
Proof.
  unfold compare_file.
  destruct loaded as [vol|e]; simpl; [|discriminate].
  destruct (dice_score gt_mask (gt vol (1 # 2))) as [q|e]; simpl; [|discriminate].
  destruct (Py.int _) as [n|e]; simpl; [|discriminate].
  destruct (snd _) as [t|]; simpl; [|discriminate].
  intros [= <-]; reflexivity.
Qed.

Lemma folder_step_filenames (volume_df : list volume_row) (gt_mask : ndarray bool)
    (gt_filename : string) (entry : string * result (ndarray Q)) :
  map filename (folder_step volume_df gt_mask gt_filename entry)
  = if candidate_file gt_filename (fst entry) then [fst entry] else [].
Proof.
  destruct entry as [file loaded]; unfold folder_step, candidate_file; simpl fst.
  destruct (Str.endswith ".nii" file || Str.endswith ".nii.gz" file); simpl;
    [|reflexivity].
  destruct (String.eqb file gt_filename); simpl; [reflexivity|].
  destruct (compare_file volume_df gt_mask file loaded) as [row|e] eqn:E; simpl;
    [|reflexivity].
  now rewrite (compare_file_filename _ _ _ _ _ E).
Qed.

(** X7.  The summary of [dice_score_folder.py] has exactly one row for
    every file of the folder that ends in ".nii" or ".nii.gz" and is not the
    ground truth, in the order of the listing, whatever happens while a
    file is compared; other files and the ground truth itself add no row. *)
Theorem dice_score_folder_one_row_per_candidate
    (volume_df : list volume_row) (ground_truth : ndarray Q) (gt_filename : string)
    (listing : list (string * result (ndarray Q))) :
  map filename (dice_score_folder volume_df ground_truth gt_filename listing)
  = filter (candidate_file gt_filename) (map fst listing).
Proof.
  unfold dice_score_folder.
  induction listing as [|entry rest IH]; simpl; [reflexivity|].
  rewrite map_app, IH, folder_step_filenames.
  destruct (candidate_file gt_filename (fst entry)); reflexivity.
Qed.

(** X8.  For a file that the loop compares, the row carries a score
    exactly when the file loads, its shape can be broadcast against the
    ground truth, the text before the first underscore of its name reads as
    an integer and there is an underscore; in every other case the row
    says "ERROR" and the score, computed or not, is not reported. *)
Theorem folder_row_reports_score_iff
    (volume_df : list volume_row) (gt_mask : ndarray bool)
    (gt_filename file : string) (loaded : result (ndarray Q)) :
  candidate_file gt_filename file = true ->
  let reported :=
    exists vol, loaded = Ok vol
      /\ broadcast_shapes (shape gt_mask) (shape vol) <> None
      /\ (exists n, Py.int (fst (file_parts file)) = Ok n)
      /\ snd (file_parts file) <> None in
  exists row,
    folder_step volume_df gt_mask gt_filename (file, loaded) = [row]
    /\ filename row = file
    /\ ((exists q, folder_dice_score row = ScoreValue q) <-> reported)
    /\ (~ reported ->
        folder_dice_score row = ScoreError
        /\ exists msg, itv_volume_mm3 row = ItvText msg).
Proof.
  intros Hcand reported.
  unfold candidate_file in Hcand; apply andb_true_iff in Hcand as (Hext & Hgt).
  apply negb_true_iff in Hgt.
  unfold folder_step; rewrite Hext, Hgt; simpl negb; cbv iota.
  unfold compare_file; fold (file_parts file).
  assert (Hno : forall msg : string,
            ~ reported ->
            exists row,
              [mk_folder_row file ScoreError (ItvText msg)] = [row]
              /\ filename row = file
              /\ ((exists q, folder_dice_score row = ScoreValue q) <-> reported)
              /\ (~ reported ->
                  folder_dice_score row = ScoreError
                  /\ exists m, itv_volume_mm3 row = ItvText m)).
  { intros msg Hnot; eexists; split; [reflexivity|split; [reflexivity|split]].
    - simpl; split; [intros (q & Hq); discriminate|intros Hr; contradiction].
    - intros _; simpl; split; [reflexivity|now exists msg]. }
  destruct loaded as [vol|e]; simpl bind.
  2:{ apply Hno; intros (vol & Hv & _); discriminate. }
  destruct (broadcast_shapes (shape gt_mask) (shape vol)) as [s|] eqn:Eb.
  2:{ destruct (dice_score_not_broadcastable gt_mask (gt vol (1 # 2)) Eb) as (m & ->).
      simpl; apply Hno; intros (vol' & [= <-] & Hb & _); congruence. }
  destruct (dice_score_broadcastable gt_mask (gt vol (1 # 2)) s Eb) as (q & ->).
  simpl bind.
  destruct (Py.int (fst (file_parts file))) as [n|e] eqn:En; simpl bind.
  2:{ apply Hno; intros (_ & _ & _ & (n & Hn) & _); discriminate. }
  destruct (snd (file_parts file)) as [t|] eqn:Et; simpl bind.
  2:{ apply Hno; intros (_ & _ & _ & _ & Hs); congruence. }
  assert (Hyes : reported).
  { exists vol; repeat split; [congruence|now exists n|discriminate]. }
  eexists; split; [reflexivity|split; [reflexivity|split]].
  - simpl; split; [intros _; exact Hyes|intros _; eexists; reflexivity].
  - intros Hnot; contradiction.
Qed.

Lemma folder_row_reports_score_iff_witness :
  let reported :=
    exists vol, Ok prediction_2x2x1 = Ok vol
      /\ broadcast_shapes (shape (gt ground_truth_2x2x2 (1 # 2))) (shape vol) <> None
      /\ (exists n, Py.int (fst (file_parts "31_middle_tumour.nii.gz")) = Ok n)
      /\ snd (file_parts "31_middle_tumour.nii.gz") <> None in
  exists row,
    folder_step [] (gt ground_truth_2x2x2 (1 # 2)) "30_middle_tumour.nii.gz"
      ("31_middle_tumour.nii.gz", Ok prediction_2x2x1) = [row]
    /\ filename row = "31_middle_tumour.nii.gz"
    /\ ((exists q, folder_dice_score row = ScoreValue q) <-> reported)
    /\ (~ reported ->
        folder_dice_score row = ScoreError
        /\ exists msg, itv_volume_mm3 row = ItvText msg).
Proof.
  apply (folder_row_reports_score_iff [] (gt ground_truth_2x2x2 (1 # 2))
           "30_middle_tumour.nii.gz" "31_middle_tumour.nii.gz" (Ok prediction_2x2x1)).
  reflexivity.
Defined.

(** *** Reading a file name *)

Lemma remove_from_skip (old s : string) :
  Py.remove_from old (String.length s) s = EmptyString.
Proof. induction s as [|c s IH]; simpl; [reflexivity|exact IH]. Qed.

Lemma startswith_head (c d : ascii) (p s : string) :
  c <> d -> Str.startswith (String c p) (String d s) = false.
Proof.
  intros Hne; simpl.
  destruct (Ascii.eqb_spec c d); [contradiction|reflexivity].
Qed.

(** Removing a suffix whose first character does not occur before it. *)
Lemma remove_all_suffix (c : ascii) (rest stem : string) :
  ~ In c (chars stem) ->
  Py.remove_all (String c rest) (stem ++ String c rest) = stem.
Proof.
  unfold Py.remove_all, chars.
  induction stem as [|d stem IH]; intros Hno.
  - cbn [append Py.remove_from].
    rewrite startswith_refl.
    cbn [String.length Nat.sub]; rewrite Nat.sub_0_r.
    apply remove_from_skip.
  - cbn [append Py.remove_from].
    rewrite startswith_head by (intros ->; apply Hno; now left).
    f_equal; apply IH.
    intros Hin; apply Hno; now right.
Qed.

Lemma split1_first (sep : ascii) (p t : string) :
  ~ In sep (chars p) ->
  Py.split1 sep (p ++ String sep t) = (p, Some t).
Proof.
  unfold chars; induction p as [|c p IH]; intros Hno; simpl.
  - now rewrite Ascii.eqb_refl.
  - destruct (Ascii.eqb_spec c sep) as [->|Hne];
      [exfalso; apply Hno; now left|].
    rewrite IH; [reflexivity|].
    intros Hin; apply Hno; now right.
Qed.

Lemma chars_app (a b : string) : chars (a ++ b) = (chars a ++ chars b)%list.
Proof.
  unfold chars; induction a as [|c a IH]; simpl; [reflexivity|now rewrite IH].
Qed.

Lemma filter_head_find {A : Type} (f : A -> bool) (l : list A) :
  match filter f l with [] => None | r :: _ => Some r end = find f l.
Proof.
  induction l as [|a l IH]; simpl; [reflexivity|].
  destruct (f a); [reflexivity|exact IH].
Qed.

(** X9.  A file named [<prefix>_<tumour>.nii.gz], with no dot in prefix
    or tumour and no underscore in the prefix, is read back into its prefix
    and its tumour name (underscores of the tumour name included); when the
    prefix reads as the integer [n] and the comparison yields a score, the
    row carries the rounded score and the rounded volume of the first row of
    the volume table with series [n] and that tumour name, or "N/A" when
    the table has none. *)
Theorem folder_file_name_lookup
    (volume_df : list volume_row) (gt_mask : ndarray bool)
    (prefix tumour : string) (n : Z) (vol : ndarray Q) (q : Q) :
  ~ In "."%char (chars prefix) -> ~ In "."%char (chars tumour) ->
  ~ In "_"%char (chars prefix) ->
  Py.int prefix = Ok n ->
  dice_score gt_mask (gt vol (1 # 2)) = Ok q ->
  let file := prefix ++ "_" ++ tumour ++ ".nii.gz" in
  file_parts file = (prefix, Some tumour)
  /\ compare_file volume_df gt_mask file (Ok vol)
     = Ok (mk_folder_row file (ScoreValue (Py.round q 4))
             match find (fun r => (vr_series_id r =? n)%Z
                                  && String.eqb (vr_name r) tumour) volume_df with
             | Some r => ItvValue (Py.round (vr_volume r) 1)
             | None => ItvNA
             end).
Proof.
  intros Hp Ht Hu Hn Hq file.
  assert (Hparts : file_parts file = (prefix, Some tumour)).
  { unfold file_parts, file.
    replace (prefix ++ "_" ++ tumour ++ ".nii.gz")
      with ((prefix ++ "_" ++ tumour) ++ ".nii.gz")
      by (now rewrite !append_assoc_str).
    rewrite (remove_all_suffix "."%char "nii.gz").
    - apply (split1_first "_"%char); exact Hu.
    - rewrite !chars_app; intros Hin.
      apply in_app_or in Hin as [Hin|Hin]; [contradiction|].
      apply in_app_or in Hin as [Hin|Hin]; [|contradiction].
      simpl in Hin; destruct Hin as [E|[]]; discriminate. }
  split; [exact Hparts|].
  unfold compare_file; fold (file_parts file).
  rewrite Hparts; simpl bind; rewrite Hq; simpl bind; simpl fst; rewrite Hn.
  simpl bind; simpl snd; cbv iota.
  rewrite <- filter_head_find.
  destruct (filter _ volume_df); reflexivity.
Qed.

Lemma folder_file_name_lookup_witness :
  file_parts ("31" ++ "_" ++ "middle_tumour" ++ ".nii.gz") = ("31", Some "middle_tumour")
  /\ compare_file [mk_volume_row 31 "middle_tumour" (123456 # 100)]
       (gt ground_truth_2x2x2 (1 # 2))
       ("31" ++ "_" ++ "middle_tumour" ++ ".nii.gz") (Ok prediction_2x2x1)
     = Ok (mk_folder_row ("31" ++ "_" ++ "middle_tumour" ++ ".nii.gz")
             (ScoreValue (Py.round (16 # 12) 4))
             match find (fun r => (vr_series_id r =? 31)%Z
                                  && String.eqb (vr_name r) "middle_tumour")
                        [mk_volume_row 31 "middle_tumour" (123456 # 100)] with
             | Some r => ItvValue (Py.round (vr_volume r) 1)
             | None => ItvNA
             end).
Proof.
  apply (folder_file_name_lookup [mk_volume_row 31 "middle_tumour" (123456 # 100)]
           (gt ground_truth_2x2x2 (1 # 2)) "31" "middle_tumour" 31
           prediction_2x2x1 (16 # 12)).
  - simpl; intros [E|[E|[]]]; discriminate.
  - simpl; intros Hin; repeat (destruct Hin as [Hin|Hin]; [discriminate|]); exact Hin.
  - simpl; intros [E|[E|[]]]; discriminate.
  - reflexivity.
  - reflexivity.
Defined.


(** ** More on the z extractors *)

Lemma reference_present_iff (df : list structure_row) (tumour reference : string) :
  In reference (map series_id (phase_table df tumour)) <->
  exists r, In r df /\ name r = tumour
            /\ normalize (series_id r) = reference /\ In reference PHASE_ORDER.
Proof.
  rewrite in_map_iff; split.
  - intros (r' & <- & Hr').
    apply phase_table_in in Hr' as (r & Hr & Hn & Hp & ->).
    exists r; auto.
  - intros (r & Hr & Hn & <- & Hp).
    exists (with_series_id r (normalize (series_id r))); split; [reflexivity|].
    apply phase_table_in; exists r; auto.
Qed.

Lemma filter_map_length {A B : Type} (f : A -> B) (g : B -> bool) (l : list A) :
  List.length (filter g (map f l)) = List.length (filter (fun a => g (f a)) l).
Proof.
  induction l as [|a l IH]; simpl; [reflexivity|].
  destruct (g (f a)); simpl; now rewrite IH.
Qed.

Lemma filter_filter_andb {A : Type} (h g : A -> bool) (l : list A) :
  filter g (filter h l) = filter (fun a => h a && g a) l.
Proof.
  induction l as [|a l IH]; simpl; [reflexivity|].
  destruct (h a); simpl; [|exact IH].
  destruct (g a); now rewrite IH.
Qed.

Lemma phase_table_length (df : list structure_row) (tumour : string) :
  List.length (phase_table df tumour) = List.length (structure_phase_rows df tumour).
Proof.
  unfold phase_table, structure_phase_rows.
  rewrite (Permutation_length (sort_values_perm _ _)).
  rewrite filter_map_length, filter_filter_andb.
  reflexivity.
Qed.

(** X10.  When some record of the structure has the reference as its
    normalised label, and the reference is a canonical phase,
    [process_structure_csv] returns one entry for each record of the
    structure whose trimmed, lower-cased label is a canonical phase, and for
    no other record; the entries carry the normalised labels and come in
    the order of the canonical sequence. *)
Theorem process_structure_csv_output
    (file_path : string) (df : list structure_row) (tumour reference : string)
    (ref_row : structure_row) :
  In ref_row df -> name ref_row = tumour ->
  normalize (series_id ref_row) = reference -> In reference PHASE_ORDER ->
  exists out,
    process_structure_csv file_path df tumour reference = Ok out
    /\ List.length out = List.length (structure_phase_rows df tumour)
    /\ (forall label, In label (map fst out) <->
          exists r, In r df /\ name r = tumour
                    /\ normalize (series_id r) = label /\ In label PHASE_ORDER)
    /\ Sorted (fun l1 l2 =>
                 Pd.code_le (phase_position l1) (phase_position l2) = true)
              (map fst out).
Proof.
  intros Hin Hname Hnorm Hcanon.
  assert (Hpresent : In reference (map series_id (phase_table df tumour))).
  { apply reference_present_iff; exists ref_row; auto. }
  rewrite process_structure_csv_tail
    by exact (phase_table_object_column _ _ _ Hpresent).
  destruct (subtract_reference_present series_id z file_path _ _ Hpresent)
    as (ref & _ & _ & ->).
  eexists; split; [reflexivity|].
  rewrite map_map, length_map; simpl.
  split; [apply phase_table_length|].
  split; [intros label; apply reference_present_iff|apply phase_table_sorted].
Qed.

Lemma process_structure_csv_output_witness :
  exists out,
    process_structure_csv "structure_stats_1.csv" unnormalized_rows
      "lower_tumour" "0in" = Ok out
    /\ List.length out
       = List.length (structure_phase_rows unnormalized_rows "lower_tumour")
    /\ (forall label, In label (map fst out) <->
          exists r, In r unnormalized_rows /\ name r = "lower_tumour"
                    /\ normalize (series_id r) = label /\ In label PHASE_ORDER)
    /\ Sorted (fun l1 l2 =>
                 Pd.code_le (phase_position l1) (phase_position l2) = true)
              (map fst out).
Proof.
  apply (process_structure_csv_output "structure_stats_1.csv" unnormalized_rows
           "lower_tumour" "0in" (mk_structure_row " 0IN" "lower_tumour" 3 4 0)).
  - now left.
  - reflexivity.
  - reflexivity.
  - now left.
Defined.

(** X11.  The reference is compared as it is given, against labels that
    are all canonical phases: a reference that is not one of the eight
    canonical labels, such as "0IN" or " 0in", makes
    [process_structure_csv] fail on every table, even one whose raw labels
    contain it; on a table with a row of a canonical phase the failure is
    the [ValueError] that names the reference and the file. *)
Theorem non_canonical_reference_always_fails
    (file_path : string) (df : list structure_row) (tumour reference : string) :
  ~ In reference PHASE_ORDER ->
  (exists e, process_structure_csv file_path df tumour reference = Raise e)
  /\ ((exists r, In r df /\ In (normalize (series_id r)) PHASE_ORDER) ->
      process_structure_csv file_path df tumour reference
      = Raise (ValueError ("Reference phase '" ++ reference
                             ++ "' not found in " ++ file_path))).
Proof.
  intros Hnot.
  assert (Habs : ~ In reference (map series_id (phase_table df tumour))).
  { intros Hin; apply Hnot; exact (phase_table_labels _ _ _ Hin). }
  split.
  - destruct (Pd.object_column (map series_id df)) eqn:Hobj.
    + eexists; rewrite process_structure_csv_tail by exact Hobj.
      now apply subtract_reference_absent.
    + eexists; now apply process_structure_csv_numeric.
  - intros (r & Hr & Hcanon).
    rewrite process_structure_csv_tail
      by exact (canonical_row_object_column df r Hr Hcanon).
    now apply subtract_reference_absent.
Qed.

Lemma non_canonical_reference_always_fails_witness :
  (exists e,
      process_structure_csv "structure_stats_1.csv" unnormalized_rows
        "lower_tumour" " 0IN" = Raise e)
  /\ ((exists r, In r unnormalized_rows /\ In (normalize (series_id r)) PHASE_ORDER) ->
      process_structure_csv "structure_stats_1.csv" unnormalized_rows
        "lower_tumour" " 0IN"
      = Raise (ValueError ("Reference phase '" ++ " 0IN"
                             ++ "' not found in " ++ "structure_stats_1.csv"))).
Proof.
  apply (non_canonical_reference_always_fails "structure_stats_1.csv"
           unnormalized_rows "lower_tumour" " 0IN").
  simpl; intros Hin.
  repeat (destruct Hin as [Hin|Hin]; [discriminate|]); exact Hin.
Defined.

(** *** Filtering under a map *)




(** *** Labels that differ in case or surrounding white space *)





(** ** More on [tumour_displacement.py] *)

Lemma StronglySorted_impl_in {A : Type} (R R' : A -> A -> Prop) (l : list A) :
  (forall a b, In a l -> In b l -> R a b -> R' a b) ->
  StronglySorted R l -> StronglySorted R' l.
Proof.
  intros Himp Hs; induction Hs as [|a l Hs IH Hall]; constructor.
  - apply IH; intros u v Hu Hv; apply Himp; now right.
  - rewrite Forall_forall in *; intros b Hb.
    apply Himp; [now left|now right|now apply Hall].
Qed.

Lemma StronglySorted_filter {A : Type} (R : A -> A -> Prop) (f : A -> bool)
    (l : list A) :
  StronglySorted R l -> StronglySorted R (filter f l).
Proof.
  induction 1 as [|a l Hs IH Hall]; simpl; [constructor|].
  destruct (f a); [|exact IH].
  constructor; [exact IH|].
  rewrite Forall_forall in *; intros b Hb.
  apply filter_In in Hb as (Hb & _); now apply Hall.
Qed.

Lemma StronglySorted_map {A B : Type} (g : A -> B) (R : B -> B -> Prop)
    (l : list A) :
  StronglySorted (fun a b => R (g a) (g b)) l -> StronglySorted R (map g l).
Proof.
  induction 1 as [|a l Hs IH Hall]; simpl; constructor; [exact IH|].
  rewrite Forall_forall in *; intros b Hb.
  apply in_map_iff in Hb as (u & <- & Hu); now apply Hall.
Qed.

Lemma sort_values_strongly_sorted {A : Type} (le : A -> A -> bool) (l : list A) :
  (forall a b, le a b = true \/ le b a = true) ->
  (forall a b c, le a b = true -> le b c = true -> le a c = true) ->
  StronglySorted (fun u v => le u v = true) (Pd.sort_values le l).
Proof.
  intros Htotal Htrans.
  apply Sorted_StronglySorted; [|now apply sort_values_sorted].
  intros a b c; apply Htrans.
Qed.

Lemma permutation_filter {A : Type} (f : A -> bool) (l l' : list A) :
  Permutation l l' -> Permutation (filter f l) (filter f l').
Proof.
  induction 1 as [|a l l' HP IH|a b l|l l' l'' HP1 IH1 HP2 IH2]; simpl.
  - constructor.
  - destruct (f a); [now constructor|exact IH].
  - destruct (f a), (f b); try reflexivity; apply perm_swap.
  - now transitivity (filter f l').
Qed.

Lemma code_le_trans (a b c : option nat) :
  Pd.code_le a b = true -> Pd.code_le b c = true -> Pd.code_le a c = true.
Proof.
  destruct a as [i|], b as [j|], c as [k|]; simpl; try congruence.
  rewrite !Nat.leb_le; lia.
Qed.

Lemma code_in (categories : list string) (label : string) :
  In label categories -> exists i, Pd.code categories label = Some i.
Proof.
  induction categories as [|c rest IH]; simpl; [intros []|].
  intros Hin; destruct (String.eqb_spec label c) as [->|Hne]; [now exists 0%nat|].
  destruct Hin as [->|Hin]; [contradiction|].
  destruct (IH Hin) as (i & ->); now exists (S i).
Qed.

(** Restricting the categories keeps the relative order of the labels
    that remain. *)
Lemma code_filter_mono (f : string -> bool) (categories : list string)
    (l1 l2 : string) :
  In l1 (filter f categories) -> In l2 (filter f categories) ->
  Pd.code_le (Pd.code (filter f categories) l1) (Pd.code (filter f categories) l2) = true ->
  Pd.code_le (Pd.code categories l1) (Pd.code categories l2) = true.
Proof.
  induction categories as [|c rest IH]; simpl; [intros []|].
  intros H1 H2.
  destruct (f c) eqn:Ec.
  - simpl.
    destruct (String.eqb_spec l1 c) as [->|N1], (String.eqb_spec l2 c) as [->|N2];
      simpl.
    + reflexivity.
    + destruct H2 as [->|H2]; [contradiction|].
      apply filter_In in H2 as (H2 & _).
      destruct (code_in rest l2 H2) as (i & ->); reflexivity.
    + destruct H1 as [->|H1]; [contradiction|].
      destruct (code_in _ l1 H1) as (i & ->); simpl; discriminate.
    + destruct H1 as [->|H1]; [contradiction|].
      destruct H2 as [->|H2]; [contradiction|].
      specialize (IH H1 H2).
      destruct (code_in _ l1 H1) as (i1 & E1), (code_in _ l2 H2) as (i2 & E2).
      apply filter_In in H1 as (H1 & _), H2 as (H2 & _).
      destruct (code_in rest l1 H1) as (j1 & F1), (code_in rest l2 H2) as (j2 & F2).
      rewrite E1, E2, F1, F2 in *; simpl in *; exact IH.
  - assert (N1 : l1 <> c) by (intros ->; apply filter_In in H1 as (_ & H1); congruence).
    assert (N2 : l2 <> c) by (intros ->; apply filter_In in H2 as (_ & H2); congruence).
    apply String.eqb_neq in N1, N2; rewrite N1, N2.
    intros Hle; specialize (IH H1 H2 Hle).
    apply filter_In in H1 as (H1 & _), H2 as (H2 & _).
    destruct (code_in rest l1 H1) as (j1 & F1), (code_in rest l2 H2) as (j2 & F2).
    rewrite F1, F2 in *; simpl in *; exact IH.
Qed.

Lemma Qle_bool_total (a b : Q) : Qle_bool a b = true \/ Qle_bool b a = true.
Proof.
  rewrite !Qle_bool_iff.
  destruct (Qlt_le_dec a b) as [Hlt|Hle]; [left; now apply Qlt_le_weak|now right].
Qed.

Lemma Qle_bool_trans (a b c : Q) :
  Qle_bool a b = true -> Qle_bool b c = true -> Qle_bool a c = true.
Proof. rewrite !Qle_bool_iff; apply Qle_trans. Qed.

Section TumourDisplacementOrder.

Variable py_float : string -> option Q.

Lemma astype_float_keys (df : list structure_row) (keyed : list (Q * structure_row)) :
  astype_float py_float df = Ok keyed ->
  forall v r, In (v, r) keyed -> py_float (series_id r) = Some v.
Proof.
  revert keyed; induction df as [|r0 df IH]; simpl; intros keyed Hrun.
  - injection Hrun as <-; intros v r [].
  - destruct (py_float (series_id r0)) as [v0|] eqn:E0; [|discriminate].
    destruct (astype_float py_float df) as [rest|e]; simpl in Hrun; [|discriminate].
    injection Hrun as <-.
    intros v r [[= <- <-]|Hin]; [exact E0|now apply (IH rest)].
Qed.

Lemma order_rows_numeric (df : list structure_row) :
  (forall r, In r df -> is_numeric py_float (series_id r) = true) ->
  exists keyed,
    astype_float py_float df = Ok keyed
    /\ map snd keyed = df
    /\ order_rows py_float df
       = Ok (map (fun a => (Number (fst a), snd a))
                 (Pd.sort_values (fun a b => Qle_bool (fst a) (fst b)) keyed)).
Proof.
  intros Hall.
  assert (E : forallb (fun r => is_numeric py_float (series_id r)) df = true)
    by (apply forallb_forall; exact Hall).
  destruct (astype_float_total py_float df E) as (keyed & Hk & Hsnd).
  exists keyed; split; [exact Hk|split; [exact Hsnd|]].
  unfold order_rows; rewrite E, Hk; reflexivity.
Qed.

Lemma order_rows_phase (df : list structure_row) (bad : structure_row) :
  In bad df -> is_numeric py_float (series_id bad) = false ->
  order_rows py_float df
  = Ok (map (fun a => (Phase (fst a), snd a))
          (Pd.sort_values
             (fun a b =>
                Pd.code_le
                  (match fst a with
                   | Some l => Pd.code (existing_phases df) l
                   | None => None
                   end)
                  (match fst b with
                   | Some l => Pd.code (existing_phases df) l
                   | None => None
                   end))
             (map (fun r => (categorical (existing_phases df) (series_id r), r)) df))).
Proof.
  intros Hin Hbad; unfold order_rows.
  assert (E : forallb (fun r => is_numeric py_float (series_id r)) df = false).
  { apply not_true_is_false; intros Hall.
    rewrite forallb_forall in Hall; specialize (Hall bad Hin); congruence. }
  now rewrite E.
Qed.

End TumourDisplacementOrder.

(** X15.  When every series identifier that is not an average reads as
    a number, the script orders by that number: every row is kept under the
    value [float] gives its label, and in each subplot the keys never go
    down from one point to any later one. *)
Theorem numeric_keys_plotted_ascending
    (py_float : string -> option Q) (df : list structure_row) :
  (forall r, In r (drop_average df) -> is_numeric py_float (series_id r) = true) ->
  exists ordered,
    tumour_displacement py_float df = Ok (map (tumour_panel ordered) tumour_names)
    /\ Permutation (map snd ordered) (drop_average df)
    /\ (forall k r, In (k, r) ordered ->
          exists v, k = Number v /\ py_float (series_id r) = Some v)
    /\ (forall tumour,
          StronglySorted number_le
            (map fst (panel_points (tumour_panel ordered tumour)))).
Proof.
  intros Hall.
  destruct (order_rows_numeric py_float _ Hall) as (keyed & Hk & Hsnd & Ho).
  eexists; split.
  { unfold tumour_displacement; rewrite Ho; cbn [bind].
    apply plot_loop_accepted.
    intros tumour _; apply plot_accepts_numbers.
    intros k Hin; rewrite panel_keys in Hin.
    apply in_map_iff in Hin as ([k' r] & <- & Hf).
    apply filter_In in Hf as (Hf & _).
    apply in_map_iff in Hf as ([v r'] & [= <- <-] & _).
    eexists; reflexivity. }
  split; [|split].
  - rewrite map_map; simpl; rewrite <- Hsnd.
    apply (Permutation_map snd), sort_values_perm.
  - intros k r Hin.
    apply in_map_iff in Hin as ([v r'] & E & Hs).
    simpl in E; injection E as <- <-.
    apply sort_values_in in Hs.
    exists v; split; [reflexivity|exact (astype_float_keys py_float _ _ Hk v r' Hs)].
  - intros tumour; rewrite panel_keys.
    apply StronglySorted_map, StronglySorted_filter, StronglySorted_map.
    apply (StronglySorted_impl_in (fun a b => Qle_bool (fst a) (fst b) = true)).
    + intros a b _ _ Hle; simpl; now apply Qle_bool_iff.
    + apply sort_values_strongly_sorted.
      * intros a b; apply Qle_bool_total.
      * intros a b c; apply Qle_bool_trans.
Qed.

Lemma numeric_keys_plotted_ascending_witness :
  exists ordered,
    tumour_displacement Py.float
      [ mk_structure_row "10" "lower_tumour" 0 0 1;
        mk_structure_row "9" "lower_tumour" 0 0 2 ]
    = Ok (map (tumour_panel ordered) tumour_names)
    /\ Permutation (map snd ordered)
         (drop_average [ mk_structure_row "10" "lower_tumour" 0 0 1;
                         mk_structure_row "9" "lower_tumour" 0 0 2 ])
    /\ (forall k r, In (k, r) ordered ->
          exists v, k = Number v /\ Py.float (series_id r) = Some v)
    /\ (forall tumour,
          StronglySorted number_le
            (map fst (panel_points (tumour_panel ordered tumour)))).
Proof.
  apply (numeric_keys_plotted_ascending Py.float).
  simpl; intros r [<-|[<-|[]]]; reflexivity.
Defined.

(** The rows prepared for a subplot in the phase branch: the points
    labelled with a category come in the order of the canonical sequence,
    the points without a category after all of them. *)
Lemma phase_keys_sorted (py_float : string -> option Q) (df : list structure_row)
    (bad : structure_row) (ordered : list (series_key * structure_row))
    (tumour : string) :
  In bad df -> is_numeric py_float (series_id bad) = false ->
  order_rows py_float df = Ok ordered ->
  StronglySorted phase_key_le
    (map fst (panel_points (tumour_panel ordered tumour))).
Proof.
  intros Hin Hbad Hrun.
  rewrite (order_rows_phase py_float _ _ Hin Hbad) in Hrun.
  injection Hrun as <-.
  rewrite panel_keys.
  apply StronglySorted_map, StronglySorted_filter, StronglySorted_map.
  eapply StronglySorted_impl_in;
    [|apply sort_values_strongly_sorted;
      [intros a b; apply code_le_total|intros a b c; apply code_le_trans]].
  intros a b Ha Hb Hle; simpl.
  apply sort_values_in, in_map_iff in Ha as (ra & <- & _).
  apply sort_values_in, in_map_iff in Hb as (rb & <- & _).
  simpl in *; unfold categorical in *.
  destruct (Str.mem (series_id ra) (existing_phases df)) eqn:Ea,
           (Str.mem (series_id rb) (existing_phases df)) eqn:Eb; simpl in *.
  - apply mem_In in Ea, Eb.
    exact (code_filter_mono _ PHASE_ORDER _ _ Ea Eb Hle).
  - apply mem_In in Ea; unfold existing_phases in Ea.
    apply filter_In in Ea as (Ea & _).
    unfold phase_position; destruct (code_in _ _ Ea) as (i & ->); reflexivity.
  - apply mem_In in Eb.
    destruct (code_in _ _ Eb) as (j & Ej); rewrite Ej in Hle; discriminate.
  - reflexivity.
Qed.

(** In the phase branch a row with a canonical label is keyed by it. *)
Lemma phase_keys_canonical (py_float : string -> option Q) (df : list structure_row)
    (bad : structure_row) (ordered : list (series_key * structure_row)) :
  In bad df -> is_numeric py_float (series_id bad) = false ->
  order_rows py_float df = Ok ordered ->
  forall k r, In (k, r) ordered -> In (series_id r) PHASE_ORDER ->
  k = Phase (Some (series_id r)).
Proof.
  intros Hin Hbad Hrun k r Hkr Hp.
  destruct (order_rows_not_numeric py_float _ _ Hin Hbad) as (ordered' & Ho & HP & Hk).
  assert (ordered' = ordered) by congruence; subst ordered'.
  rewrite (Hk k r Hkr); f_equal.
  unfold categorical, existing_phases.
  assert (Hr : In r df).
  { apply (Permutation_in _ HP), in_map_iff; exists (k, r); auto. }
  assert (Hm : Str.mem (series_id r)
                 (filter (fun p => Str.mem p (map series_id df)) PHASE_ORDER) = true).
  { apply mem_In, filter_In; split; [exact Hp|].
    apply mem_In, in_map; exact Hr. }
  now rewrite Hm.
Qed.

(** X16.  When some series identifier does not read as a number, the
    script orders by phase: among the points it prepares for a subplot,
    those labelled with a canonical phase come in the order of the
    canonical sequence (although the categories are only the phases present
    in the table), the others after all of them, and the subplots it
    returns are the prepared ones.  When every label that is not an average
    is a canonical phase the script returns them, every row keyed by its
    label. *)
Theorem phase_keys_plotted_in_canonical_order
    (py_float : string -> option Q) (df : list structure_row) (bad : structure_row) :
  In bad (drop_average df) ->
  is_numeric py_float (series_id bad) = false ->
  exists ordered,
    order_rows py_float (drop_average df) = Ok ordered
    /\ (forall tumour,
          StronglySorted phase_key_le
            (map fst (panel_points (tumour_panel ordered tumour))))
    /\ (forall panels, tumour_displacement py_float df = Ok panels ->
          panels = map (tumour_panel ordered) tumour_names)
    /\ ((forall r, In r (drop_average df) -> In (series_id r) PHASE_ORDER) ->
        tumour_displacement py_float df = Ok (map (tumour_panel ordered) tumour_names)
        /\ (forall k r, In (k, r) ordered -> k = Phase (Some (series_id r)))).
Proof.
  intros Hin Hbad.
  destruct (tumour_displacement_prepared py_float df)
    as (ordered & Ho & HP & Hacc & Hok & _).
  exists ordered; split; [exact Ho|].
  split; [intros tumour; exact (phase_keys_sorted py_float _ _ _ _ Hin Hbad Ho)|].
  split; [exact Hok|].
  intros Hcanon.
  assert (Hkeys : forall k r, In (k, r) ordered -> k = Phase (Some (series_id r))).
  { intros k r Hkr.
    apply (phase_keys_canonical py_float _ _ _ Hin Hbad Ho k r Hkr), Hcanon.
    apply (Permutation_in _ HP), in_map_iff; exists (k, r); auto. }
  split; [|exact Hkeys].
  apply Hacc; intros tumour _.
  apply plot_accepts_labels.
  intros k Hk; rewrite panel_keys in Hk.
  apply in_map_iff in Hk as ([k' r] & <- & Hf).
  apply filter_In in Hf as (Hf & _).
  exists (series_id r); exact (Hkeys k' r Hf).
Qed.

Lemma phase_keys_plotted_in_canonical_order_witness :
  (forall r, In r (drop_average canonical_rows) -> In (series_id r) PHASE_ORDER)
  /\ exists ordered,
    order_rows Py.float (drop_average canonical_rows) = Ok ordered
    /\ (forall tumour,
          StronglySorted phase_key_le
            (map fst (panel_points (tumour_panel ordered tumour))))
    /\ (forall panels, tumour_displacement Py.float canonical_rows = Ok panels ->
          panels = map (tumour_panel ordered) tumour_names)
    /\ ((forall r, In r (drop_average canonical_rows) -> In (series_id r) PHASE_ORDER) ->
        tumour_displacement Py.float canonical_rows
        = Ok (map (tumour_panel ordered) tumour_names)
        /\ (forall k r, In (k, r) ordered -> k = Phase (Some (series_id r)))).
Proof.
  split.
  - simpl; intros r [<-|[<-|[<-|[]]]]; simpl; auto 10.
  - apply (phase_keys_plotted_in_canonical_order Py.float canonical_rows
             (mk_structure_row "50in" "lower_tumour" 0 0 3)).
    + left; reflexivity.
    + reflexivity.
Defined.

(** X17.  The points prepared for a subplot are exactly one for every row
    of its tumour whose label does not contain "average" in any letter
    case, and the "no data" branch is taken exactly when there is no such
    row; the subplots the script returns are the prepared ones, and it
    returns them whenever [plot] accepts the keys of each. *)
Theorem panel_points_count
    (py_float : string -> option Q) (df : list structure_row) :
  exists ordered,
    order_rows py_float (drop_average df) = Ok ordered
    /\ (forall tumour,
          List.length (panel_points (tumour_panel ordered tumour))
          = List.length (tumour_rows df tumour)
          /\ (tumour_panel ordered tumour = NoData <-> tumour_rows df tumour = []))
    /\ (forall panels, tumour_displacement py_float df = Ok panels ->
          panels = map (tumour_panel ordered) tumour_names)
    /\ ((forall tumour, In tumour tumour_names ->
           plot_accepts (map fst (panel_points (tumour_panel ordered tumour))) = true) ->
        tumour_displacement py_float df = Ok (map (tumour_panel ordered) tumour_names)).
Proof.
  destruct (tumour_displacement_prepared py_float df)
    as (ordered & Ho & HP & Hacc & Hok & _).
  exists ordered; split; [exact Ho|split; [|split; [exact Hok|exact Hacc]]].
  intros tumour.
  assert (Hlen : List.length (filter (fun a => String.eqb (name (snd a)) tumour) ordered)
                 = List.length (tumour_rows df tumour)).
  { rewrite <- (filter_map_length snd (fun r => String.eqb (name r) tumour)).
    rewrite (Permutation_length
               (permutation_filter (fun r => String.eqb (name r) tumour) _ _ HP)).
    unfold drop_average, tumour_rows; now rewrite filter_filter_andb. }
  split.
  - now rewrite tumour_panel_points, length_map.
  - unfold tumour_panel.
    destruct (filter (fun a => String.eqb (name (snd a)) tumour) ordered) as [|a l];
      destruct (tumour_rows df tumour) as [|r rs]; simpl in Hlen; try discriminate;
      split; congruence.
Qed.

(** ** The batch drivers *)

Section TryLoop.

(** A loop whose body either prints a line and saves a plot, or prints
    the error it caught. *)
Context {E : Type} (run : E -> result (list (string * Q)))
        (ok_line : E -> string) (ok_plot : E -> list (string * Q) -> plot)
        (error_line : E -> exn -> string)
        (step : run_log -> E -> run_log).

Hypothesis step_eq : forall log entry,
  step log entry
  = match run entry with
    | Ok out => mk_run_log (List.app (printed log) [ok_line entry])
                           (List.app (saved log) [ok_plot entry out])
    | Raise e => mk_run_log (List.app (printed log) [error_line entry e]) (saved log)
    end.

Lemma try_loop_printed (entries : list E) (log : run_log) :
  printed (fold_left step entries log)
  = List.app (printed log)
      (map (fun entry => match run entry with
                         | Ok _ => ok_line entry
                         | Raise e => error_line entry e
                         end) entries).
Proof.
  revert log; induction entries as [|entry rest IH]; intros log; simpl.
  - now rewrite app_nil_r.
  - rewrite IH, step_eq.
    destruct (run entry); simpl; now rewrite <- app_assoc.
Qed.

Lemma try_loop_saved (entries : list E) (log : run_log) :
  saved (fold_left step entries log)
  = List.app (saved log)
      (flat_map (fun entry => match run entry with
                              | Ok out => [ok_plot entry out]
                              | Raise _ => []
                              end) entries).
Proof.
  revert log; induction entries as [|entry rest IH]; intros log; simpl.
  - now rewrite app_nil_r.
  - rewrite IH, step_eq.
    destruct (run entry); simpl; [now rewrite <- app_assoc|reflexivity].
Qed.

End TryLoop.

Section DriverProperties.

Variable os_path_join : string -> string -> string.
Variable base_name_of : string -> string.

(** X19.  [process_folder] prints one line per CSV file after its
    header, so no failure stops the batch.  It saves a plot exactly for the
    files that can be read and for which [process_structure_csv] returns a
    table, with that table as data and
    [<folder>/<base name>_disp_<tumour>.png] as path.  A file that cannot
    be read, or whose table lacks the reference, leaves the line
    "Error processing <file>: <message>" with the message of its error and
    no plot; for a table with a row of a canonical phase that message is
    "Reference phase '<ref>' not found in <file>". *)
Theorem process_folder_log
    (folder_path tumour_name reference_phase : string)
    (csv_files : list (string * result (list structure_row))) :
  let log := process_folder os_path_join base_name_of folder_path tumour_name
               reference_phase csv_files in
  List.length (printed log) = S (List.length csv_files)
  /\ (forall p, In p (saved log) <->
        exists csv_file df out,
          In (csv_file, Ok df) csv_files
          /\ process_structure_csv csv_file df tumour_name reference_phase = Ok out
          /\ p = mk_plot (base_name_of csv_file) out
                   (os_path_join folder_path
                      (base_name_of csv_file ++ "_disp_" ++ tumour_name ++ ".png")))
  /\ (forall csv_file df,
        In (csv_file, Ok df) csv_files ->
        ~ In reference_phase (map series_id (phase_table df tumour_name)) ->
        exists e,
          process_structure_csv csv_file df tumour_name reference_phase = Raise e
          /\ In ("❌ Error processing " ++ csv_file ++ ": " ++ exn_msg e) (printed log)
          /\ ((exists r, In r df /\ In (normalize (series_id r)) PHASE_ORDER) ->
              In ("❌ Error processing " ++ csv_file ++ ": Reference phase '"
                    ++ reference_phase ++ "' not found in " ++ csv_file) (printed log)))
  /\ (forall csv_file e,
        In (csv_file, Raise e) csv_files ->
        In ("❌ Error processing " ++ csv_file ++ ": " ++ exn_msg e) (printed log)).
Proof.
  intros log.
  set (run := fun entry : string * result (list structure_row) =>
                df <- snd entry ;;
                process_structure_csv (fst entry) df tumour_name reference_phase).
  assert (Hstep : forall l entry,
            process_folder_step os_path_join base_name_of folder_path tumour_name
              reference_phase l entry
            = match run entry with
              | Ok out =>
                  mk_run_log
                    (List.app (printed l) ["✅ Processed " ++ base_name_of (fst entry)])
                    (List.app (saved l)
                       [mk_plot (base_name_of (fst entry)) out
                          (os_path_join folder_path
                             (base_name_of (fst entry) ++ "_disp_" ++ tumour_name
                                ++ ".png"))])
              | Raise e =>
                  mk_run_log
                    (List.app (printed l)
                       ["❌ Error processing " ++ fst entry ++ ": " ++ exn_msg e])
                    (saved l)
              end).
  { intros l [file read]; reflexivity. }
  pose proof (try_loop_printed run _ _ _ _ Hstep csv_files) as Hprinted.
  pose proof (try_loop_saved run _ _ _ _ Hstep csv_files) as Hsaved.
  unfold log, process_folder.
  rewrite Hprinted, Hsaved; simpl printed; simpl saved.
  split; [simpl; now rewrite length_map|].
  split; [|split].
  - intros p; simpl; rewrite in_flat_map; split.
    + intros ([file read] & Hin & Hp); unfold run in Hp; simpl in Hp.
      destruct read as [df|e]; simpl in Hp; [|contradiction].
      destruct (process_structure_csv file df tumour_name reference_phase)
        as [out|e] eqn:Erun; [|contradiction].
      destruct Hp as [<-|[]].
      exists file, df, out; auto.
    + intros (file & df & out & Hin & Hrun & ->).
      exists (file, Ok df); split; [exact Hin|].
      unfold run; simpl; rewrite Hrun; now left.
  - intros file df Hin Habs.
    assert (Hline : forall e,
              process_structure_csv file df tumour_name reference_phase = Raise e ->
              In ("❌ Error processing " ++ file ++ ": " ++ exn_msg e)
                 (List.app
                    ["Found " ++ Str.of_nat (List.length csv_files)
                       ++ " CSV files to process..."]
                    (map (fun entry =>
                            match run entry with
                            | Ok _ => "✅ Processed " ++ base_name_of (fst entry)
                            | Raise e =>
                                "❌ Error processing " ++ fst entry ++ ": " ++ exn_msg e
                            end) csv_files))).
    { intros e Hrun; simpl; right.
      apply in_map_iff; exists (file, Ok df); split; [|exact Hin].
      unfold run; simpl; now rewrite Hrun. }
    destruct (Pd.object_column (map series_id df)) eqn:Hobj.
    + pose proof (process_structure_csv_tail file df tumour_name reference_phase Hobj)
        as Hrun.
      rewrite (subtract_reference_absent series_id z file _ _ Habs) in Hrun.
      eexists; split; [exact Hrun|split; [exact (Hline _ Hrun)|]].
      intros _; exact (Hline _ Hrun).
    + pose proof (process_structure_csv_numeric file df tumour_name reference_phase Hobj)
        as Hrun.
      eexists; split; [exact Hrun|split; [exact (Hline _ Hrun)|]].
      intros (r & Hr & Hcanon).
      rewrite (canonical_row_object_column df r Hr Hcanon) in Hobj; discriminate.
  - intros file e Hin; simpl; right.
    apply in_map_iff; exists (file, Raise e); split; [reflexivity|exact Hin].
Qed.

(** X20.  [process_displacement_folder] behaves the same way around
    [compute_displacement]: one line per CSV file after the header, a plot
    saved at [<folder>/<base name>_displacement_plot.png] exactly for the
    files that are read and yield a table, and for a table without the
    reference the line "Error processing <file>: Reference phase '<ref>'
    not found in data." and no plot. *)
Theorem process_displacement_folder_log
    (folder_path reference_phase : string)
    (csv_files : list (string * result (list com_row))) :
  let log := process_displacement_folder os_path_join base_name_of folder_path
               reference_phase csv_files in
  List.length (printed log) = S (List.length csv_files)
  /\ (forall p, In p (saved log) <->
        exists csv_file df out,
          In (csv_file, Ok df) csv_files
          /\ compute_displacement df reference_phase = Ok out
          /\ p = mk_plot (base_name_of csv_file) out
                   (os_path_join folder_path
                      (base_name_of csv_file ++ "_displacement_plot.png")))
  /\ (forall csv_file df,
        In (csv_file, Ok df) csv_files ->
        ~ In reference_phase (map phase (com_table df)) ->
        In ("❌ Error processing " ++ csv_file ++ ": Reference phase '"
              ++ reference_phase ++ "' not found in data.") (printed log))
  /\ (forall csv_file e,
        In (csv_file, Raise e) csv_files ->
        In ("❌ Error processing " ++ csv_file ++ ": " ++ exn_msg e) (printed log)).
Proof.
  intros log.
  set (run := fun entry : string * result (list com_row) =>
                df <- snd entry ;; compute_displacement df reference_phase).
  assert (Hstep : forall l entry,
            process_displacement_folder_step os_path_join base_name_of folder_path
              reference_phase l entry
            = match run entry with
              | Ok out =>
                  mk_run_log
                    (List.app (printed l)
                       ["Processed and saved plot for " ++ base_name_of (fst entry)])
                    (List.app (saved l)
                       [mk_plot (base_name_of (fst entry)) out
                          (os_path_join folder_path
                             (base_name_of (fst entry) ++ "_displacement_plot.png"))])
              | Raise e =>
                  mk_run_log
                    (List.app (printed l)
                       ["❌ Error processing " ++ fst entry ++ ": " ++ exn_msg e])
                    (saved l)
              end).
  { intros l [file read]; reflexivity. }
  pose proof (try_loop_printed run _ _ _ _ Hstep csv_files) as Hprinted.
  pose proof (try_loop_saved run _ _ _ _ Hstep csv_files) as Hsaved.
  unfold log, process_displacement_folder.
  rewrite Hprinted, Hsaved; simpl printed; simpl saved.
  split; [simpl; now rewrite length_map|].
  split; [|split].
  - intros p; simpl; rewrite in_flat_map; split.
    + intros ([file read] & Hin & Hp); unfold run in Hp; simpl in Hp.
      destruct read as [df|e]; simpl in Hp; [|contradiction].
      destruct (compute_displacement df reference_phase) as [out|e] eqn:Erun;
        [|contradiction].
      destruct Hp as [<-|[]].
      exists file, df, out; auto.
    + intros (file & df & out & Hin & Hrun & ->).
      exists (file, Ok df); split; [exact Hin|].
      unfold run; simpl; rewrite Hrun; now left.
  - intros file df Hin Habs; simpl; right.
    apply in_map_iff; exists (file, Ok df); split; [|exact Hin].
    unfold run; simpl.
    rewrite compute_displacement_tail, subtract_reference_absent by exact Habs.
    reflexivity.
  - intros file e Hin; simpl; right.
    apply in_map_iff; exists (file, Raise e); split; [reflexivity|exact Hin].
Qed.

End DriverProperties.

(** ** The tumour list of the command line *)

Lemma py_split_length (sep : ascii) (s : string) :
  List.length (py_split sep s) = S (count_char sep s).
Proof.
  unfold count_char, chars; induction s as [|c s IH]; simpl; [reflexivity|].
  rewrite (Ascii.eqb_sym sep c).
  destruct (Ascii.eqb c sep); simpl; [now rewrite IH|].
  destruct (py_split sep s) as [|h t]; simpl in *; [discriminate|exact IH].
Qed.

Lemma py_split_no_sep (sep : ascii) (s : string) :
  ~ In sep (chars s) -> py_split sep s = [s].
Proof.
  unfold chars; induction s as [|c s IH]; simpl; intros Hno; [reflexivity|].
  destruct (Ascii.eqb_spec c sep) as [->|Hne]; [exfalso; apply Hno; now left|].
  rewrite IH; [reflexivity|intros Hin; apply Hno; now right].
Qed.

Lemma py_split_app (sep : ascii) (s t : string) :
  ~ In sep (chars s) -> py_split sep (s ++ String sep t) = s :: py_split sep t.
Proof.
  unfold chars; induction s as [|c s IH]; simpl; intros Hno.
  - now rewrite Ascii.eqb_refl.
  - destruct (Ascii.eqb_spec c sep) as [->|Hne]; [exfalso; apply Hno; now left|].
    rewrite IH; [reflexivity|intros Hin; apply Hno; now right].
Qed.

Lemma py_split_join (sep : ascii) (names : list string) :
  names <> [] ->
  (forall t, In t names -> ~ In sep (chars t)) ->
  py_split sep (Str.join (String sep EmptyString) names) = names.
Proof.
  induction names as [|t rest IH]; [congruence|].
  intros _ Hno; destruct rest as [|u rest].
  - simpl; apply py_split_no_sep, Hno; now left.
  - change (Str.join (String sep EmptyString) (t :: u :: rest))
      with (t ++ String sep (Str.join (String sep EmptyString) (u :: rest))).
    rewrite py_split_app by (apply Hno; now left).
    f_equal; apply IH; [discriminate|].
    intros v Hv; apply Hno; now right.
Qed.

(** X21.  The tumour list read from [--tumors] has one name more than
    the text has commas, so it is never empty: an empty text gives one
    tumour with the empty name.  Every name comes out trimmed, and names
    without commas joined by commas are read back in order, each trimmed. *)
Theorem parse_tumors_round_trip (tumors : string) (names : list string) :
  names <> [] ->
  (forall t, In t names -> ~ In ","%char (chars t)) ->
  List.length (parse_tumors tumors) = S (count_char ","%char tumors)
  /\ (forall t, In t (parse_tumors tumors) -> Str.strip t = t)
  /\ parse_tumors EmptyString = [EmptyString]
  /\ parse_tumors (Str.join "," names) = map Str.strip names.
Proof.
  intros Hne Hno; unfold parse_tumors.
  split; [now rewrite length_map, py_split_length|].
  split; [|split; [reflexivity|]].
  - intros t Hin; apply in_map_iff in Hin as (u & <- & _); apply strip_idem.
  - now rewrite (py_split_join ","%char names Hne Hno).
Qed.

Lemma parse_tumors_round_trip_witness :
  List.length (parse_tumors "tumour1, tumour2") = S (count_char ","%char "tumour1, tumour2")
  /\ (forall t, In t (parse_tumors "tumour1, tumour2") -> Str.strip t = t)
  /\ parse_tumors EmptyString = [EmptyString]
  /\ parse_tumors (Str.join "," ["tumour1"; " tumour2"])
     = map Str.strip ["tumour1"; " tumour2"].
Proof.
  apply (parse_tumors_round_trip "tumour1, tumour2" ["tumour1"; " tumour2"]).
  - discriminate.
  - intros t [<-|[<-|[]]]; simpl; intros Hin;
      repeat (destruct Hin as [Hin|Hin]; [discriminate|]); exact Hin.
Defined.
